(** * Business Finder: the retrying Places-API pipeline of [app.py]

    A shallow embedding of [make_request_with_retry], [nearby_search],
    [get_place_details], [filter_place] and the [/search] handler, with the
    network and the clock made explicit, and the properties of the pipeline
    proved over it.

    Conventions.
    - Python values that travel through the pipeline (parsed JSON bodies,
      parameter maps, error strings, [None]) are values of [pyval].
    - Text is [string] over 7-bit characters; [str.lower] and [str.strip]
      are the ASCII ones.
    - A Python float is carried by its exact value ([FFin q]), or is an
      infinity or a NaN; comparisons with [int] are exact, as in Python.
    - [float(x)], the formatting of a non-string value inside an f-string
      and the text of an exception are builtins of the interpreter: they are
      fields of the class [Builtins]. *)

From Stdlib Require Import ZArith QArith List String Ascii Bool Lia.
From Stdlib Require Import DecimalString.
Import ListNotations.
Open Scope string_scope.
Open Scope list_scope.
Open Scope Z_scope.
Set Warnings "-register-all".

(** ** Python values *)

Inductive pyfloat : Type :=
| FFin (q : Q)
| FInf (negative : bool)
| FNaN.

Inductive pyval : Type :=
| PNone
| PBool (b : bool)
| PInt (n : Z)
| PFloat (f : pyfloat)
| PStr (s : string)
| PList (l : list pyval)
| PDict (d : list (string * pyval)).

(** Exceptions that the modelled code can raise outside [requests]. *)
Inductive pyexn : Type :=
| AttributeError (v : pyval) (attr : string)
| TypeError (what : string)
| ValueError (what : string)
| OverflowError (what : string).

Inductive exc (A : Type) : Type :=
| Ok (a : A)
| Err (e : pyexn).
Arguments Ok {A} a.
Arguments Err {A} e.

(** [bool(v)]: the truth value Python gives [v] in [if v] and [not v]. *)
Definition truthy (v : pyval) : bool :=
  match v with
  | PNone => false
  | PBool b => b
  | PInt n => negb (n =? 0)
  | PFloat (FFin q) => negb (Qeq_bool q 0)
  | PFloat _ => true
  | PStr s => negb (s =? "")%string
  | PList l => match l with [] => false | _ => true end
  | PDict d => match d with [] => false | _ => true end
  end.

(** A dict is an association list; the first binding of a key is the live
    one. *)
Fixpoint assoc (d : list (string * pyval)) (k : string) : option pyval :=
  match d with
  | [] => None
  | (k', v) :: d' => if (k' =? k)%string then Some v else assoc d' k
  end.

Definition get_or (d : list (string * pyval)) (k : string) (default : pyval)
  : pyval :=
  match assoc d k with Some x => x | None => default end.

(** [v.get(k, default)] *)
Definition py_get (v : pyval) (k : string) (default : pyval) : exc pyval :=
  match v with
  | PDict d => Ok (get_or d k default)
  | _ => Err (AttributeError v "get")
  end.

(** ** Strings *)

Definition lower_char (c : ascii) : ascii :=
  let n := nat_of_ascii c in
  if (65 <=? n)%nat && (n <=? 90)%nat then ascii_of_nat (n + 32) else c.

(** [s.lower()] *)
Fixpoint py_lower (s : string) : string :=
  match s with
  | EmptyString => EmptyString
  | String c s' => String (lower_char c) (py_lower s')
  end.

(** [sub in s] *)
Fixpoint py_in (sub s : string) : bool :=
  prefix sub s ||
  match s with
  | EmptyString => false
  | String _ s' => py_in sub s'
  end.

Definition is_space (c : ascii) : bool :=
  let n := nat_of_ascii c in
  ((9 <=? n)%nat && (n <=? 13)%nat) || ((28 <=? n)%nat && (n <=? 32)%nat).

Fixpoint lstrip (s : string) : string :=
  match s with
  | EmptyString => EmptyString
  | String c s' => if is_space c then lstrip s' else s
  end.

Fixpoint rstrip (s : string) : string :=
  match s with
  | EmptyString => EmptyString
  | String c s' =>
      match rstrip s' with
      | EmptyString => if is_space c then EmptyString else String c EmptyString
      | r => String c r
      end
  end.

(** [s.strip()] *)
Definition py_strip (s : string) : string := rstrip (lstrip s).

(** ** The filter predicate *)

(** [reviews < min_reviews], with [min_reviews] an [int]. *)
Definition py_lt_int (v : pyval) (m : Z) : exc bool :=
  match v with
  | PInt r => Ok (r <? m)
  | PBool b => Ok ((if b then 1 else 0) <? m)
  | PFloat (FFin q) =>
      Ok (match Qcompare q (inject_Z m) with Lt => true | _ => false end)
  | PFloat (FInf negative) => Ok negative
  | PFloat FNaN => Ok false
  | _ => Err (TypeError "'<' not supported")
  end.

Definition filter_place (place_details : pyval) (min_reviews : Z) : exc bool :=
  match py_get place_details "user_ratings_total" (PInt 0) with
  | Err e => Err e
  | Ok reviews =>
  match py_get place_details "website" (PStr "") with
  | Err e => Err e
  | Ok website =>
  match py_lt_int reviews min_reviews with
  | Err e => Err e
  | Ok true => Ok false
  | Ok false =>
      if negb (truthy website) then Ok true
      else match website with
           | PStr w => if py_in "facebook.com" (py_lower w) then Ok true
                       else Ok false
           | _ => Err (AttributeError website "lower")
           end
  end end end.

(** ** Builtins of the interpreter and configuration *)

Class Builtins : Type := {
  (** [format(v)] of a value that is not a [str], inside an f-string *)
  py_repr : pyval -> string;
  (** [float(v)] *)
  py_float : pyval -> exc pyfloat;
  (** [int(s)] for a [str] *)
  int_of_str : string -> exc Z;
  (** [str(e)] of an exception *)
  exn_text : pyexn -> string;
  (** [os.environ.get('GOOGLE_PLACES_API_KEY', '')] *)
  GOOGLE_PLACES_API_KEY : string
}.

Definition NEARBY_SEARCH_URL : string :=
  "https://maps.googleapis.com/maps/api/place/nearbysearch/json".
Definition PLACE_DETAILS_URL : string :=
  "https://maps.googleapis.com/maps/api/place/details/json".

Definition REQUEST_DELAY : Q := 1 # 10.
Definition PAGE_TOKEN_DELAY : Q := 2 # 1.
Definition MAX_RETRIES : Z := 3.
Definition BACKOFF_FACTOR : Z := 2.

(** [f"{v}"] *)
Definition py_str `{Builtins} (v : pyval) : string :=
  match v with
  | PStr s => s
  | _ => py_repr v
  end.

(** [int(v)] *)
Definition py_int `{Builtins} (v : pyval) : exc Z :=
  match v with
  | PInt n => Ok n
  | PBool b => Ok (if b then 1 else 0)
  | PFloat (FFin q) => Ok (Z.quot (Qnum q) (Zpos (Qden q)))
  | PFloat (FInf _) => Err (OverflowError "cannot convert float infinity to integer")
  | PFloat FNaN => Err (ValueError "cannot convert float NaN to integer")
  | PStr s => int_of_str s
  | _ => Err (TypeError "int() argument")
  end.

(** [v == s] for a string literal [s] *)
Definition py_eq_str (v : pyval) (s : string) : bool :=
  match v with
  | PStr s' => (s' =? s)%string
  | _ => false
  end.

(** [range(n)] *)
Definition py_range (n : Z) : list Z := map Z.of_nat (seq 0 (Z.to_nat n)).

Fixpoint chars (s : string) : list pyval :=
  match s with
  | EmptyString => []
  | String c s' => PStr (String c EmptyString) :: chars s'
  end.

Fixpoint dict_keys (d : list (string * pyval)) (seen : list string) : list pyval :=
  match d with
  | [] => []
  | (k, _) :: d' =>
      if existsb (String.eqb k) seen then dict_keys d' seen
      else PStr k :: dict_keys d' (k :: seen)
  end.

(** [acc.extend(v)]: the list after the call *)
Definition py_extend (acc : list pyval) (v : pyval) : exc (list pyval) :=
  match v with
  | PList l => Ok (acc ++ l)
  | PStr s => Ok (acc ++ chars s)
  | PDict d => Ok (acc ++ dict_keys d [])
  | _ => Err (TypeError "object is not iterable")
  end.

(** ** The network and the clock *)

(** What [requests.get(...)], [raise_for_status()] and [response.json()]
    amount to for one call. *)
Inductive transport : Type :=
| Body (data : pyval)
| TimeoutExc
| RequestExc (text : string).

Inductive event : Type :=
| EvGet (url : string) (params : list (string * pyval))
| EvSleep (seconds : Q)
| EvPrint (line : string).

(** [gets] counts the calls issued so far, [log] is the trace, oldest event
    first. *)
Record world : Type := mkWorld { gets : nat; log : list event }.

(** A computation either finishes (with a value or an exception) in a new
    world, or exceeds the bound put on the page loop ([None]). *)
Definition M (A : Type) : Type := world -> option (exc A * world).

Definition ret {A} (a : A) : M A := fun w => Some (Ok a, w).
Definition raise {A} (e : pyexn) : M A := fun w => Some (Err e, w).
Definition bind {A B} (c : M A) (k : A -> M B) : M B :=
  fun w =>
    match c w with
    | None => None
    | Some (Err e, w') => Some (Err e, w')
    | Some (Ok a, w') => k a w'
    end.
Definition lift {A} (r : exc A) : M A :=
  match r with
  | Ok a => ret a
  | Err e => raise e
  end.

Notation "x <- c ;; k" := (bind c (fun x => k))
  (at level 61, c at next level, right associativity).
Notation "' p <- c ;; k" := (bind c (fun x => match x with p => k end))
  (at level 61, p pattern, c at next level, right associativity).
Notation "c ;;; k" := (bind c (fun _ => k))
  (at level 61, right associativity).

Definition emit (e : event) : M unit :=
  fun w => Some (Ok tt, mkWorld (gets w) (log w ++ [e])).

(** [time.sleep(seconds)] *)
Definition sleep (seconds : Q) : M unit := emit (EvSleep seconds).
(** [print(line)] *)
Definition print (line : string) : M unit := emit (EvPrint line).

(** ** The pipeline *)

Section Pipeline.

Context {B : Builtins}.

(** The remote service: the outcome of the [n]-th call issued ([n] from 0),
    which may depend on what was asked. *)
Variable remote : nat -> string -> list (string * pyval) -> transport.

(** [requests.get(url, params=params, timeout=30)] up to [response.json()] *)
Definition http_get (url : string) (params : list (string * pyval))
  : M transport :=
  fun w => Some (Ok (remote (gets w) url params),
                 mkWorld (S (gets w)) (log w ++ [EvGet url params])).

(** The body of [for attempt in range(max_retries)], over the attempts that
    are left. *)
Fixpoint retry_loop (url : string) (params : list (string * pyval))
    (max_retries : Z) (attempts : list Z) : M (pyval * pyval) :=
  match attempts with
  | [] => ret (PNone, PStr "Max retries exceeded")
  | attempt :: rest =>
      t <- http_get url params ;;
      match t with
      | Body data =>
          status <- lift (py_get data "status" (PStr "UNKNOWN")) ;;
          if py_eq_str status "OK" || py_eq_str status "ZERO_RESULTS" then
            ret (data, PNone)
          else if py_eq_str status "OVER_QUERY_LIMIT" then
            sleep (inject_Z (BACKOFF_FACTOR ^ attempt)) ;;;
            retry_loop url params max_retries rest
          else if py_eq_str status "REQUEST_DENIED" then
            m <- lift (py_get data "error_message" (PStr "Check API key")) ;;
            ret (PNone, PStr ("Request denied: " ++ py_str m))
          else if py_eq_str status "INVALID_REQUEST" then
            m <- lift (py_get data "error_message" (PStr "Check parameters")) ;;
            ret (PNone, PStr ("Invalid request: " ++ py_str m))
          else
            ret (PNone, PStr ("API error: " ++ py_str status))
      | TimeoutExc =>
          if attempt <? max_retries - 1 then
            sleep (inject_Z (BACKOFF_FACTOR ^ attempt)) ;;;
            retry_loop url params max_retries rest
          else ret (PNone, PStr "Request timed out")
      | RequestExc text =>
          if attempt <? max_retries - 1 then
            sleep (inject_Z (BACKOFF_FACTOR ^ attempt)) ;;;
            retry_loop url params max_retries rest
          else ret (PNone, PStr ("Network error: " ++ text))
      end
  end.

Definition make_request_with_retry (url : string)
    (params : list (string * pyval)) (max_retries : Z) : M (pyval * pyval) :=
  retry_loop url params max_retries (py_range max_retries).

(** The body of [while True] in [nearby_search]; [fuel] bounds the number
    of pages walked. *)
Fixpoint search_loop (fuel : nat) (params : list (string * pyval))
    (all_results : list pyval) : M (option (list pyval) * pyval) :=
  match fuel with
  | O => fun _ => None
  | S fuel' =>
      '(data, error) <- make_request_with_retry NEARBY_SEARCH_URL params MAX_RETRIES ;;
      if truthy error then ret (None, error)
      else
        results <- lift (py_get data "results" (PList [])) ;;
        all_results' <- lift (py_extend all_results results) ;;
        next_page_token <- lift (py_get data "next_page_token" PNone) ;;
        if negb (truthy next_page_token) then ret (Some all_results', PNone)
        else
          sleep PAGE_TOKEN_DELAY ;;;
          sleep REQUEST_DELAY ;;;
          search_loop fuel'
            [("key", PStr GOOGLE_PLACES_API_KEY);
             ("pagetoken", next_page_token)]
            all_results'
  end.

Definition nearby_search (fuel : nat) (query : string) (lat lng : pyfloat)
    (radius_meters : Z) : M (option (list pyval) * pyval) :=
  search_loop fuel
    [("key", PStr GOOGLE_PLACES_API_KEY);
     ("location", PStr (py_str (PFloat lat) ++ "," ++ py_str (PFloat lng)));
     ("radius", PInt radius_meters);
     ("keyword", PStr query)]
    [].

Definition DETAIL_FIELDS : string :=
  "name,formatted_address,formatted_phone_number,website,user_ratings_total,rating,place_id".

Definition get_place_details (place_id : pyval) : M (pyval * pyval) :=
  '(data, error) <- make_request_with_retry PLACE_DETAILS_URL
                      [("key", PStr GOOGLE_PLACES_API_KEY);
                       ("place_id", place_id);
                       ("fields", PStr DETAIL_FIELDS)]
                      MAX_RETRIES ;;
  if truthy error then ret (PNone, error)
  else
    result <- lift (py_get data "result" (PDict [])) ;;
    ret (result, PNone).

(** [jsonify(body)] and the status that goes with it. *)
Definition jsonify (body : list (string * pyval)) : pyval := PDict body.

(** The record appended to [filtered_results]. *)
Definition make_record (details place_id : pyval) : exc pyval :=
  match py_get details "name" (PStr "") with Err e => Err e | Ok name =>
  match py_get details "formatted_address" (PStr "") with Err e => Err e | Ok address =>
  match py_get details "formatted_phone_number" (PStr "") with Err e => Err e | Ok phone =>
  match py_get details "website" (PStr "") with Err e => Err e | Ok website =>
  match py_get details "user_ratings_total" (PInt 0) with Err e => Err e | Ok reviews =>
  match py_get details "rating" (PInt 0) with Err e => Err e | Ok rating =>
  match py_get details "place_id" place_id with Err e => Err e | Ok pid =>
    Ok (PDict [("name", name); ("address", address); ("phone", phone);
               ("website", website); ("reviews", reviews);
               ("rating", rating); ("place_id", pid)])
  end end end end end end end.

(** One turn of [for place in nearby_results]; the value is
    [filtered_results] after the turn. *)
Definition enrich_one (min_reviews : Z) (filtered_results : list pyval)
    (place : pyval) : M (list pyval) :=
  place_id <- lift (py_get place "place_id" PNone) ;;
  if negb (truthy place_id) then ret filtered_results
  else
    sleep REQUEST_DELAY ;;;
    '(details, error) <- get_place_details place_id ;;
    if truthy error then
      print ("Error fetching details for " ++ py_str place_id ++ ": "
             ++ py_str error) ;;;
      ret filtered_results
    else
      keep <- lift (filter_place details min_reviews) ;;
      if keep then
        record <- lift (make_record details place_id) ;;
        ret (filtered_results ++ [record])
      else ret filtered_results.

Fixpoint enrich (min_reviews : Z) (nearby_results : list pyval)
    (filtered_results : list pyval) : M (list pyval) :=
  match nearby_results with
  | [] => ret filtered_results
  | place :: rest =>
      filtered_results' <- enrich_one min_reviews filtered_results place ;;
      enrich min_reviews rest filtered_results'
  end.

(** [v.strip()] *)
Definition py_strip_method (v : pyval) : exc string :=
  match v with
  | PStr s => Ok (py_strip s)
  | _ => Err (AttributeError v "strip")
  end.

(** The four conversions of the inner [try], in order. *)
Definition convert (lat lng radius_meters min_reviews : pyval)
  : exc (pyfloat * pyfloat * Z * Z) :=
  match py_float lat with Err e => Err e | Ok lat' =>
  match py_float lng with Err e => Err e | Ok lng' =>
  match py_int radius_meters with Err e => Err e | Ok radius' =>
  match py_int min_reviews with Err e => Err e | Ok min' =>
    Ok (lat', lng', radius', min')
  end end end end.

Definition is_none (v : pyval) : bool :=
  match v with PNone => true | _ => false end.

(** The body of the outer [try] of [search]; [data] is
    [request.get_json()]. The value is the response body and its status. *)
Definition search_body (fuel : nat) (data : pyval) : M (pyval * Z) :=
  q <- lift (py_get data "query" (PStr "")) ;;
  query <- lift (py_strip_method q) ;;
  lat <- lift (py_get data "lat" PNone) ;;
  lng <- lift (py_get data "lng" PNone) ;;
  radius_meters <- lift (py_get data "radius_meters" (PInt 5000)) ;;
  min_reviews <- lift (py_get data "min_reviews" (PInt 0)) ;;
  if negb (truthy (PStr query)) then
    ret (jsonify [("error", PStr "Business query is required")], 400)
  else if is_none lat || is_none lng then
    ret (jsonify [("error", PStr "Location coordinates are required")], 400)
  else
    match convert lat lng radius_meters min_reviews with
    | Err (ValueError _) =>
        ret (jsonify [("error", PStr "Invalid parameter types")], 400)
    | Err e => raise e
    | Ok (lat, lng, radius_meters, min_reviews) =>
        let radius_meters := Z.min radius_meters 50000 in
        '(nearby_results, error) <- nearby_search fuel query lat lng radius_meters ;;
        if truthy error then ret (jsonify [("error", error)], 500)
        else
          match nearby_results with
          | None | Some [] =>
              ret (jsonify [("results", PList []);
                            ("message", PStr "No results found")], 200)
          | Some nearby_results =>
              filtered_results <- enrich min_reviews nearby_results [] ;;
              ret (jsonify
                     [("results", PList filtered_results);
                      ("total_found", PInt (Z.of_nat (List.length nearby_results)));
                      ("filtered_count", PInt (Z.of_nat (List.length filtered_results)))],
                   200)
          end
    end.

(** [search]: the outer [except Exception] turns any exception into a
    500. *)
Definition search (fuel : nat) (data : pyval) : M (pyval * Z) :=
  fun w =>
    match search_body fuel data w with
    | Some (Err e, w') =>
        Some (Ok (jsonify [("error", PStr ("Server error: " ++ exn_text e))],
                  500), w')
    | r => r
    end.

End Pipeline.

(** ** Vocabulary of the statements *)

(** The review count of a detail record whose [user_ratings_total] is an
    integer or is missing (then it counts as 0). *)
Definition reviews_of (d : list (string * pyval)) : option Z :=
  match assoc d "user_ratings_total" with
  | None => Some 0
  | Some (PInt r) => Some r
  | Some _ => None
  end.

(** The website of a detail record: [Some None] when the key is missing or
    null, [Some (Some s)] for a string. *)
Definition website_of (d : list (string * pyval)) : option (option string) :=
  match assoc d "website" with
  | None | Some PNone => Some None
  | Some (PStr s) => Some (Some s)
  | Some _ => None
  end.

(** [s] contains [needle] up to the case of letters. *)
Definition contains_ci (needle s : string) : Prop :=
  exists pre mid post,
    s = (pre ++ mid ++ post)%string /\ py_lower mid = needle.

(** The inclusion rule in the words of the specification. *)
Definition accepts (reviews : Z) (website : option string) (min_reviews : Z)
  : Prop :=
  min_reviews <= reviews /\
  (website = None \/ website = Some "" \/
   exists w, website = Some w /\ contains_ci "facebook.com" w).

(** *** Traces *)

Definition is_get (e : event) : bool :=
  match e with EvGet _ _ => true | _ => false end.

(** The number of remote calls in a trace. *)
Definition count_gets (l : list event) : nat := List.length (filter is_get l).

(** What an attempt that fails and is retried leaves in the trace: the call,
    then the backoff of [BACKOFF_FACTOR ^ attempt] seconds. *)
Definition backoff_round (url : string) (params : list (string * pyval))
    (attempt : nat) : list event :=
  [EvGet url params; EvSleep (inject_Z (BACKOFF_FACTOR ^ Z.of_nat attempt))].

(** [count] such rounds in a row, for the attempts [first], [first+1], ... *)
Fixpoint backoff_rounds (url : string) (params : list (string * pyval))
    (first count : nat) : list event :=
  match count with
  | O => []
  | S count' =>
      backoff_round url params first
      ++ backoff_rounds url params (S first) count'
  end.

(** *** Classification of one attempt *)

(** The status field of a response body that is a JSON object. *)
Definition status_of (d : list (string * pyval)) : pyval :=
  get_or d "status" (PStr "UNKNOWN").

Definition error_message_of (d : list (string * pyval)) (default : string)
  : pyval :=
  get_or d "error_message" (PStr default).

Definition rate_limited (t : transport) : bool :=
  match t with
  | Body (PDict d) => py_eq_str (status_of d) "OVER_QUERY_LIMIT"
  | _ => false
  end.

Definition transport_fault (t : transport) : bool :=
  match t with
  | TimeoutExc | RequestExc _ => true
  | Body _ => false
  end.

(** The attempt of index [i] is followed by a backoff and another turn of
    the loop: the service is over its quota, or the transport failed and
    [i] is not the last index. *)
Definition retried (max_retries : Z) (i : nat) (t : transport) : bool :=
  rate_limited t || (transport_fault t && (Z.of_nat i <? max_retries - 1)).

(** The kinds of failure of the specification. *)
Inductive failure_kind : Type :=
| RateLimited | Timeout | NetworkError | InvalidRequest | Denied
| UnknownApiError.

(** The kind that an error string of [make_request_with_retry] stands
    for. *)
Definition kind_of_error (error : pyval) : option failure_kind :=
  match error with
  | PStr m =>
      if prefix "Request denied: " m then Some Denied
      else if prefix "Invalid request: " m then Some InvalidRequest
      else if prefix "API error: " m then Some UnknownApiError
      else if (m =? "Request timed out")%string then Some Timeout
      else if prefix "Network error: " m then Some NetworkError
      else if (m =? "Max retries exceeded")%string then Some UnknownApiError
      else None
  | _ => None
  end.

(** What [make_request_with_retry] can hand back: a body and no error, or
    no body and an error of one of the terminal kinds; a body that is not a
    JSON object makes [data.get] raise instead. *)
Definition classified (r : exc (pyval * pyval)) : Prop :=
  match r with
  | Ok (_, PNone) => True
  | Ok (PNone, error) =>
      exists kind, kind_of_error error = Some kind /\ kind <> RateLimited
  | Ok _ => False
  | Err e => exists v, e = AttributeError v "get"
  end.

(** The world after one more call and the events [evs] that follow it. *)
Definition after_get (w : world) (url : string)
    (params : list (string * pyval)) (evs : list event) : world :=
  mkWorld (S (gets w)) (log w ++ EvGet url params :: evs).

(** The world after the attempts [0 .. k-1] failed and were retried. *)
Definition after_rounds (w : world) (url : string)
    (params : list (string * pyval)) (k : nat) : world :=
  mkWorld (gets w + k) (log w ++ backoff_rounds url params 0 k).

(** *** Search pages *)

(** The fields of a search page (a response body that is a JSON object). *)
Definition page_results (d : list (string * pyval)) : pyval :=
  get_or d "results" (PList []).

Definition page_token (d : list (string * pyval)) : pyval :=
  get_or d "next_page_token" PNone.

Definition page_entries (d : list (string * pyval)) : list pyval :=
  match page_results d with PList l => l | _ => [] end.

(** A successful page: status OK or ZERO_RESULTS, and a list of results. *)
Definition page_ok (d : list (string * pyval)) : bool :=
  (py_eq_str (status_of d) "OK" || py_eq_str (status_of d) "ZERO_RESULTS")
  && match page_results d with PList _ => true | _ => false end.

(** Every page but the last carries a next-page token. *)
Fixpoint chained (pages : list (list (string * pyval))) : bool :=
  match pages with
  | [] => false
  | [d] => negb (truthy (page_token d))
  | d :: rest => truthy (page_token d) && chained rest
  end.

(** The parameters of a call for a further page. *)
Definition next_params `{Builtins} (token : pyval) : list (string * pyval) :=
  [("key", PStr GOOGLE_PLACES_API_KEY); ("pagetoken", token)].

(** The parameters of the call for the first page. *)
Definition first_params `{Builtins} (query : string) (lat lng : pyfloat)
    (radius_meters : Z) : list (string * pyval) :=
  [("key", PStr GOOGLE_PLACES_API_KEY);
   ("location", PStr (py_str (PFloat lat) ++ "," ++ py_str (PFloat lng)));
   ("radius", PInt radius_meters);
   ("keyword", PStr query)].

(** The trace of a walk over [pages] that starts with [params]: one call
    per page and, between two calls, the token delay and the courtesy
    delay. *)
Fixpoint walk_trace `{Builtins} (params : list (string * pyval))
    (pages : list (list (string * pyval))) : list event :=
  match pages with
  | [] => []
  | d :: rest =>
      EvGet NEARBY_SEARCH_URL params ::
      match rest with
      | [] => []
      | _ => EvSleep PAGE_TOKEN_DELAY :: EvSleep REQUEST_DELAY ::
             walk_trace (next_params (page_token d)) rest
      end
  end.

(** The time slept between consecutive calls of a trace; [since] is the
    time slept since the last call, if there was one. *)
Fixpoint waits (l : list event) (since : option Q) : list Q :=
  match l with
  | [] => []
  | EvGet _ _ :: l' =>
      match since with Some q => [q] | None => [] end ++ waits l' (Some 0%Q)
  | EvSleep s :: l' => waits l' (option_map (fun q => (q + s)%Q) since)
  | EvPrint _ :: l' => waits l' since
  end.

(** *** Requests *)

(** The arguments that [search] extracts from a request body that passes
    its checks and conversions: the stripped query, the coordinates, the
    radius before clamping and the review threshold. *)
Definition validated `{Builtins} (data : pyval)
  : option (string * pyfloat * pyfloat * Z * Z) :=
  match data with
  | PDict d =>
      match get_or d "query" (PStr "") with
      | PStr q =>
          if (py_strip q =? "")%string then None
          else if is_none (get_or d "lat" PNone)
                  || is_none (get_or d "lng" PNone) then None
          else
            match convert (get_or d "lat" PNone) (get_or d "lng" PNone)
                          (get_or d "radius_meters" (PInt 5000))
                          (get_or d "min_reviews" (PInt 0)) with
            | Ok args => Some (py_strip q, fst (fst (fst args)),
                               snd (fst (fst args)), snd (fst args), snd args)
            | Err _ => None
            end
      | _ => None
      end
  | _ => None
  end.

(** [l1] is [l2] with some elements left out: same order, nothing merged. *)
Inductive subseq {A : Type} : list A -> list A -> Prop :=
| subseq_nil : subseq [] []
| subseq_skip (x : A) (l1 l2 : list A) : subseq l1 l2 -> subseq l1 (x :: l2)
| subseq_take (x : A) (l1 l2 : list A) :
    subseq l1 l2 -> subseq (x :: l1) (x :: l2).

(** An output record, read back as the detail record the filter looks
    at. *)
Definition record_view (record : pyval) : pyval :=
  match record with
  | PDict r => PDict [("user_ratings_total", get_or r "reviews" PNone);
                      ("website", get_or r "website" PNone)]
  | _ => PNone
  end.

(** [record] is the output record of [place]: the place has an id, the
    detail call for it succeeded, the details pass the filter and [record]
    is built from them. *)
Definition kept_record `{Builtins}
    (remote : nat -> string -> list (string * pyval) -> transport)
    (min_reviews : Z) (place record : pyval) : Prop :=
  exists place_id details error w1 w2,
    py_get place "place_id" PNone = Ok place_id /\
    truthy place_id = true /\
    get_place_details remote place_id w1 = Some (Ok (details, error), w2) /\
    truthy error = false /\
    filter_place details min_reviews = Ok true /\
    make_record details place_id = Ok record.

(** The world after [time.sleep(REQUEST_DELAY)]. *)
Definition after_delay (w : world) : world :=
  mkWorld (gets w) (log w ++ [EvSleep REQUEST_DELAY]).

(** The world after the failure of a detail call was printed. *)
Definition after_print `{Builtins} (w : world) (place_id error : pyval)
  : world :=
  mkWorld (gets w)
    (log w ++ [EvPrint ("Error fetching details for " ++ py_str place_id
                        ++ ": " ++ py_str error)]).

(** The number of detail calls in a trace. *)
Definition detail_calls (l : list event) : nat :=
  List.length
    (filter (fun e => match e with
                      | EvGet url _ => (url =? PLACE_DETAILS_URL)%string
                      | _ => false
                      end) l).

(** A computation only adds events at the end of the trace. *)
Definition grows {A : Type} (c : M A) : Prop :=
  forall w r w', c w = Some (r, w') -> exists tail, log w' = log w ++ tail.

(** The first thing a computation does is the call [url], [params]. *)
Definition calls_first {A : Type} (url : string)
    (params : list (string * pyval)) (c : M A) : Prop :=
  forall w r w', c w = Some (r, w') ->
                 exists tail, log w' = log w ++ EvGet url params :: tail.

(** *** An interpreter for the examples *)

Definition example_repr (v : pyval) : string :=
  match v with
  | PNone => "None"
  | PBool true => "True"
  | PBool false => "False"
  | PInt n => NilZero.string_of_int (Z.to_int n)
  | PFloat (FFin q) =>
      if (Zpos (Qden q) =? 1) then
        (NilZero.string_of_int (Z.to_int (Qnum q)) ++ ".0")%string
      else "<float>"
  | PFloat (FInf false) => "inf"
  | PFloat (FInf true) => "-inf"
  | PFloat FNaN => "nan"
  | PStr s => s
  | PList _ => "[...]"
  | PDict _ => "{...}"
  end.

Definition example_float (v : pyval) : exc pyfloat :=
  match v with
  | PFloat f => Ok f
  | PInt n => Ok (FFin (inject_Z n))
  | PBool b => Ok (FFin (if b then 1 else 0)%Q)
  | PStr _ => Err (ValueError "could not convert string to float")
  | _ => Err (TypeError "float() argument")
  end.

Definition example_int_of_str (s : string) : exc Z :=
  match NilZero.int_of_string (py_strip s) with
  | Some i => Ok (Z.of_int i)
  | None => Err (ValueError "invalid literal for int()")
  end.

Definition example_exn_text (e : pyexn) : string :=
  match e with
  | AttributeError _ attr => ("object has no attribute '" ++ attr ++ "'")%string
  | TypeError what | ValueError what | OverflowError what => what
  end.

Definition example_builtins : Builtins :=
  {| py_repr := example_repr;
     py_float := example_float;
     int_of_str := example_int_of_str;
     exn_text := example_exn_text;
     GOOGLE_PLACES_API_KEY := "k" |}.

(** The world before anything happened. *)
Definition w0 : world := mkWorld 0 [].

(** A service that is over its quota for the first two calls and then
    denies the request. *)
Definition remote_denied_third (n : nat) (_ : string)
    (_ : list (string * pyval)) : transport :=
  if (n <? 2)%nat then Body (PDict [("status", PStr "OVER_QUERY_LIMIT")])
  else Body (PDict [("status", PStr "REQUEST_DENIED");
                    ("error_message", PStr "The provided API key is invalid.")]).

(** A service that is always over its quota, and one that never answers in
    time. *)
Definition remote_over_limit (_ : nat) (_ : string)
    (_ : list (string * pyval)) : transport :=
  Body (PDict [("status", PStr "OVER_QUERY_LIMIT")]).

Definition remote_timeout (_ : nat) (_ : string)
    (_ : list (string * pyval)) : transport :=
  TimeoutExc.

(** Three pages of results, the first two with a next-page token, and a
    service that serves them in turn. *)
Definition place (id : string) : pyval := PDict [("place_id", PStr id)].

Definition page1 : list (string * pyval) :=
  [("status", PStr "OK"); ("results", PList [place "A"; place "B"]);
   ("next_page_token", PStr "t1")].
Definition page2 : list (string * pyval) :=
  [("status", PStr "OK"); ("results", PList [place "C"]);
   ("next_page_token", PStr "t2")].
Definition page3 : list (string * pyval) :=
  [("status", PStr "OK"); ("results", PList [place "D"; place "E"])].

Definition remote_three_pages (n : nat) (_ : string)
    (_ : list (string * pyval)) : transport :=
  match nth_error [page1; page2; page3] n with
  | Some d => Body (PDict d)
  | None => TimeoutExc
  end.

(** A request for bakeries with at least 20 reviews, and a service that
    finds two places, never answers in time about "A" and has details for
    "B". *)
Definition bakery_request : pyval :=
  PDict [("query", PStr "bakery"); ("lat", PFloat (FFin 40));
         ("lng", PFloat (FFin (-74))); ("radius_meters", PInt 5000);
         ("min_reviews", PInt 20)].

Definition details_B : pyval :=
  PDict [("name", PStr "B Bakery"); ("user_ratings_total", PInt 25);
         ("website", PStr ""); ("place_id", PStr "B")].

Definition record_B : pyval :=
  PDict [("name", PStr "B Bakery"); ("address", PStr ""); ("phone", PStr "");
         ("website", PStr ""); ("reviews", PInt 25); ("rating", PInt 0);
         ("place_id", PStr "B")].

Definition remote_details (params : list (string * pyval)) : transport :=
  if py_eq_str (get_or params "place_id" PNone) "B" then
    Body (PDict [("status", PStr "OK"); ("result", details_B)])
  else TimeoutExc.

Definition remote_bakery (_ : nat) (url : string)
    (params : list (string * pyval)) : transport :=
  if (url =? NEARBY_SEARCH_URL)%string then
    Body (PDict [("status", PStr "OK");
                 ("results", PList [place "A"; place "B"])])
  else remote_details params.

(** A service whose search finds an entry without [place_id] and the place
    "B". *)
Definition remote_no_id (_ : nat) (url : string)
    (params : list (string * pyval)) : transport :=
  if (url =? NEARBY_SEARCH_URL)%string then
    Body (PDict [("status", PStr "OK");
                 ("results", PList [PDict [("name", PStr "Nameless")];
                                    place "B"])])
  else remote_details params.

(** The same request with a radius of 100 km, and with a negative
    radius. *)
Definition wide_request : pyval :=
  PDict [("query", PStr "bakery"); ("lat", PFloat (FFin 40));
         ("lng", PFloat (FFin (-74))); ("radius_meters", PInt 100000)].

Definition negative_request : pyval :=
  PDict [("query", PStr "bakery"); ("lat", PFloat (FFin 40));
         ("lng", PFloat (FFin (-74))); ("radius_meters", PInt (-5))].

(** The bakery request with a radius that is not a number, and without
    radius and threshold. *)
Definition nan_request : pyval :=
  PDict [("query", PStr "bakery"); ("lat", PFloat (FFin 40));
         ("lng", PFloat (FFin (-74))); ("radius_meters", PFloat FNaN)].

Definition plain_request : pyval :=
  PDict [("query", PStr "bakery"); ("lat", PFloat (FFin 40));
         ("lng", PFloat (FFin (-74)))].

(** The bakery request with blanks around the query. *)
Definition padded_request : pyval :=
  PDict [("query", PStr "  bakery "); ("lat", PFloat (FFin 40));
         ("lng", PFloat (FFin (-74)))].

(** A service whose search finds nothing. *)
Definition remote_nothing (_ : nat) (_ : string)
    (_ : list (string * pyval)) : transport :=
  Body (PDict [("status", PStr "ZERO_RESULTS"); ("results", PList [])]).

(** A service that serves two pages and then denies the request. *)
Definition remote_denied_page3 (n : nat) (_ : string)
    (_ : list (string * pyval)) : transport :=
  match nth_error [page1; page2] n with
  | Some d => Body (PDict d)
  | None => Body (PDict [("status", PStr "REQUEST_DENIED");
                         ("error_message", PStr "Quota revoked")])
  end.

(** The parameters of the detail call for [place_id]. *)
Definition detail_params `{Builtins} (place_id : pyval)
  : list (string * pyval) :=
  [("key", PStr GOOGLE_PLACES_API_KEY);
   ("place_id", place_id);
   ("fields", PStr DETAIL_FIELDS)].

(** *** Further vocabulary *)

(** The time slept in a trace, in seconds. *)
Fixpoint total_sleep (l : list event) : Q :=
  match l with
  | [] => 0
  | EvSleep s :: l' => s + total_sleep l'
  | _ :: l' => total_sleep l'
  end.

(** A computation adds at most [n] calls to the trace. *)
Definition calls_at_most {A : Type} (n : nat) (c : M A) : Prop :=
  forall w r w', c w = Some (r, w') ->
                 exists tail, log w' = log w ++ tail /\ (count_gets tail <= n)%nat.

(** The search entry is a JSON object with a truthy [place_id]. *)
Definition has_id (place : pyval) : bool :=
  match py_get place "place_id" PNone with
  | Ok place_id => truthy place_id
  | Err _ => false
  end.

(** The records that the details of a place add to [filtered_results]. *)
Definition kept_of (min_reviews : Z) (place_id details : pyval)
  : list pyval :=
  match filter_place details min_reviews with
  | Ok true =>
      match make_record details place_id with
      | Ok record => [record]
      | Err _ => []
      end
  | _ => []
  end.

(** A place (a JSON object) together with the body that answers its detail
    call: the place has an id, the body has status OK or ZERO_RESULTS, and
    the filter does not raise on its result. *)
Definition item_ok (min_reviews : Z)
    (item : list (string * pyval) * list (string * pyval)) : bool :=
  truthy (get_or (fst item) "place_id" PNone)
  && (py_eq_str (status_of (snd item)) "OK"
      || py_eq_str (status_of (snd item)) "ZERO_RESULTS")
  && match filter_place (get_or (snd item) "result" (PDict [])) min_reviews with
     | Ok _ => true
     | Err _ => false
     end.

(** What the enrichment of such a place leaves in the trace. *)
Definition detail_round `{Builtins}
    (item : list (string * pyval) * list (string * pyval)) : list event :=
  [EvSleep REQUEST_DELAY;
   EvGet PLACE_DETAILS_URL (detail_params (get_or (fst item) "place_id" PNone))].

(** The record of a place whose details are the empty object. *)
Definition blank_record (place_id : pyval) : pyval :=
  PDict [("name", PStr ""); ("address", PStr ""); ("phone", PStr "");
         ("website", PStr ""); ("reviews", PInt 0); ("rating", PInt 0);
         ("place_id", place_id)].

(** A service whose details for "B" have a null review count. *)
Definition remote_null_reviews (_ : nat) (url : string)
    (params : list (string * pyval)) : transport :=
  if (url =? NEARBY_SEARCH_URL)%string then
    Body (PDict [("status", PStr "OK");
                 ("results", PList [place "B"; place "C"])])
  else
    Body (PDict [("status", PStr "OK");
                 ("result", PDict [("name", PStr "B Bakery");
                                   ("user_ratings_total", PNone)])]).

(** A service that answers the calls with the bodies of a list, in turn. *)
Definition remote_serving (bodies : list (list (string * pyval))) (n : nat)
    (_ : string) (_ : list (string * pyval)) : transport :=
  match nth_error bodies n with
  | Some d => Body (PDict d)
  | None => TimeoutExc
  end.

(** Two places with the bodies that answer their detail calls: "B" has 25
    reviews and no website, "C" has 3 reviews. *)
Definition answered_items
  : list (list (string * pyval) * list (string * pyval)) :=
  [([("place_id", PStr "B")],
    [("status", PStr "OK"); ("result", details_B)]);
   ([("place_id", PStr "C")],
    [("status", PStr "OK");
     ("result", PDict [("name", PStr "C Cafe");
                       ("user_ratings_total", PInt 3)])])].

(** A service that answers with the empty JSON object. *)
Definition remote_empty_object (_ : nat) (_ : string)
    (_ : list (string * pyval)) : transport :=
  Body (PDict []).

(** A service whose detail bodies have no [result]. *)
Definition remote_no_result (_ : nat) (_ : string)
    (_ : list (string * pyval)) : transport :=
  Body (PDict [("status", PStr "OK")]).

(** * Properties *)

(** ** Strings *)

Lemma prefix_app (a s : string) :
  prefix a s = true <-> exists post, s = (a ++ post)%string.
Proof.
  revert s; induction a as [|c a IH]; intros s.
  - split; [intros _; now exists s | intros _; now destruct s].
  - destruct s as [|c' s]; simpl.
    + split; [discriminate | intros [post H]; discriminate].
    + destruct (Ascii.ascii_dec c c') as [->|Hne].
      * rewrite IH. split; intros [post H]; exists post.
        -- now rewrite H.
        -- now injection H.
      * split; [discriminate | intros [post H]; injection H; congruence].
Qed.

Lemma py_in_app (sub s : string) :
  py_in sub s = true <-> exists pre post, s = (pre ++ sub ++ post)%string.
Proof.
  induction s as [|c s IH]; cbn [py_in].
  - rewrite orb_false_r, prefix_app. split.
    + intros [post H]. now exists "", post.
    + intros [[|c pre] [post H]]; [now exists post | discriminate].
  - rewrite orb_true_iff, prefix_app, IH. split.
    + intros [[post H] | [pre [post H]]].
      * now exists "", post.
      * exists (String c pre), post. simpl. now rewrite H.
    + intros [[|c' pre] [post H]].
      * left. now exists post.
      * right. exists pre, post. simpl in H. now injection H.
Qed.

Lemma py_lower_app (a b : string) :
  py_lower (a ++ b) = (py_lower a ++ py_lower b)%string.
Proof. induction a as [|c a IH]; simpl; [reflexivity | now rewrite IH]. Qed.

Lemma py_lower_split (w a b : string) :
  py_lower w = (a ++ b)%string ->
  exists x y, w = (x ++ y)%string /\ py_lower x = a /\ py_lower y = b.
Proof.
  revert w; induction a as [|c a IH]; intros w H; simpl in H.
  - now exists "", w.
  - destruct w as [|c' w]; [discriminate|]. simpl in H.
    injection H as Hc Hw. destruct (IH _ Hw) as (x & y & -> & Hx & Hy).
    exists (String c' x), y. simpl. now rewrite Hx, Hc.
Qed.

Lemma contains_ci_lower (needle s : string) :
  py_in needle (py_lower s) = true <-> contains_ci needle s.
Proof.
  rewrite py_in_app. unfold contains_ci. split.
  - intros (pre & post & H).
    destruct (py_lower_split _ _ _ H) as (x & y & -> & Hx & Hy).
    destruct (py_lower_split _ _ _ Hy) as (m & z & -> & Hm & Hz).
    now exists x, m, z.
  - intros (pre & mid & post & -> & Hm).
    exists (py_lower pre), (py_lower post).
    now rewrite !py_lower_app, Hm.
Qed.

(** ** The filter predicate *)

Lemma filter_place_typed (d : list (string * pyval)) (min_reviews r : Z)
    (w : option string) :
  reviews_of d = Some r ->
  website_of d = Some w ->
  filter_place (PDict d) min_reviews =
    Ok (if r <? min_reviews then false
        else match w with
             | None => true
             | Some s => (s =? "")%string || py_in "facebook.com" (py_lower s)
             end).
Proof.
  unfold reviews_of, website_of, filter_place, py_get, get_or. intros Hr Hw.
  assert (Hlt : py_lt_int
            match assoc d "user_ratings_total" with
            | Some x => x | None => PInt 0 end min_reviews
          = Ok (r <? min_reviews)).
  { destruct (assoc d "user_ratings_total") as [[]|]; try discriminate;
      injection Hr as <-; reflexivity. }
  rewrite Hlt. destruct (r <? min_reviews); [reflexivity|].
  destruct (assoc d "website") as [[]|]; try discriminate;
    injection Hw as <-; try reflexivity.
  simpl. destruct (s =? "")%string; simpl; [reflexivity|].
  now destruct (py_in _ _).
Qed.

(** C1. For a detail record whose review count is an integer (or missing,
    which counts as 0) and whose website is a string, null or missing, and
    for every integer [min_reviews], [filter_place] returns a boolean, and it
    is [True] exactly when the review count is at least [min_reviews] and the
    website is missing, null, empty or contains "facebook.com" up to case.
    With [min_reviews = 10]: 5 reviews and website "" is rejected; 15 reviews
    is accepted with website "", with "http://FACEBOOK.com/x", with a null
    website and with no website key, and rejected with
    "http://example.com". *)
Theorem filter_place_accepts :
  (forall (d : list (string * pyval)) (min_reviews r : Z) (w : option string),
      reviews_of d = Some r ->
      website_of d = Some w ->
      exists b : bool,
        filter_place (PDict d) min_reviews = Ok b /\
        (b = true <-> accepts r w min_reviews)) /\
  filter_place
    (PDict [("user_ratings_total", PInt 5); ("website", PStr "")]) 10
    = Ok false /\
  filter_place
    (PDict [("user_ratings_total", PInt 15); ("website", PStr "")]) 10
    = Ok true /\
  filter_place
    (PDict [("user_ratings_total", PInt 15);
            ("website", PStr "http://FACEBOOK.com/x")]) 10
    = Ok true /\
  filter_place
    (PDict [("user_ratings_total", PInt 15);
            ("website", PStr "http://example.com")]) 10
    = Ok false /\
  filter_place
    (PDict [("user_ratings_total", PInt 15); ("website", PNone)]) 10
    = Ok true /\
  filter_place (PDict [("user_ratings_total", PInt 15)]) 10 = Ok true.
Proof.
  split; [|repeat split; reflexivity].
  intros d m r w Hr Hw. eexists. split; [exact (filter_place_typed _ _ _ _ Hr Hw)|].
  unfold accepts. destruct (Z.ltb_spec r m) as [Hlt|Hge].
  - split; [discriminate | intros [H _]; lia].
  - destruct w as [s|].
    + rewrite orb_true_iff, contains_ci_lower, String.eqb_eq. split.
      * intros [->|H]; (split; [exact Hge|]); right; [now left|].
        right. now exists s.
      * intros [_ [H|[H|(s' & H & Hc)]]]; [discriminate| |].
        -- left. now injection H.
        -- right. injection H as ->. exact Hc.
    + split; [intros _; split; [exact Hge | now left] | reflexivity].
Qed.

Lemma filter_place_accepts_witness :
  reviews_of [("user_ratings_total", PInt 15);
              ("website", PStr "http://FACEBOOK.com/x")] = Some 15 /\
  website_of [("user_ratings_total", PInt 15);
              ("website", PStr "http://FACEBOOK.com/x")]
    = Some (Some "http://FACEBOOK.com/x") /\
  exists b : bool,
    filter_place
      (PDict [("user_ratings_total", PInt 15);
              ("website", PStr "http://FACEBOOK.com/x")]) 10 = Ok b /\
    (b = true <-> accepts 15 (Some "http://FACEBOOK.com/x") 10).
Proof.
  split; [reflexivity|]. split; [reflexivity|].
  apply (proj1 filter_place_accepts); reflexivity.
Defined.

(** ** The request executor *)

Ltac run_monad :=
  unfold bind, ret, raise, lift, sleep, print, emit, http_get; simpl.

Lemma py_eq_str_inv (v : pyval) (s : string) :
  py_eq_str v s = true -> v = PStr s.
Proof.
  destruct v; simpl; try discriminate. intros H.
  apply String.eqb_eq in H. now subst.
Qed.

Lemma log_snoc2 (l : list event) (e1 e2 : event) :
  (l ++ [e1]) ++ [e2] = l ++ [e1; e2].
Proof. now rewrite <- app_assoc. Qed.

Lemma kind_of_error_denied (m : string) :
  kind_of_error (PStr ("Request denied: " ++ m)) = Some Denied.
Proof. simpl. now destruct m. Qed.

Lemma kind_of_error_invalid (m : string) :
  kind_of_error (PStr ("Invalid request: " ++ m)) = Some InvalidRequest.
Proof. simpl. now destruct m. Qed.

Lemma kind_of_error_api (m : string) :
  kind_of_error (PStr ("API error: " ++ m)) = Some UnknownApiError.
Proof. simpl. now destruct m. Qed.

Lemma kind_of_error_network (m : string) :
  kind_of_error (PStr ("Network error: " ++ m)) = Some NetworkError.
Proof. simpl. now destruct m. Qed.

Section Executor.

Context {B : Builtins}.
Variable remote : nat -> string -> list (string * pyval) -> transport.
Variable url : string.
Variable params : list (string * pyval).
Variable max_retries : Z.

(** A retried attempt costs one call and one backoff, and the loop goes
    on. *)
Lemma retry_loop_retried (a : nat) (rest : list Z) (w : world) :
  retried max_retries a (remote (gets w) url params) = true ->
  retry_loop remote url params max_retries (Z.of_nat a :: rest) w =
  retry_loop remote url params max_retries rest
    (after_get w url params
               [EvSleep (inject_Z (BACKOFF_FACTOR ^ Z.of_nat a))]).
Proof.
  unfold retried, after_get. intros H. cbn [retry_loop]. run_monad.
  destruct (remote (gets w) url params) as [data| |text]; simpl in H.
  - destruct data; try discriminate. simpl. fold (status_of d).
    rewrite orb_false_r in H. apply py_eq_str_inv in H. rewrite H. simpl. now rewrite log_snoc2.
  - rewrite H. simpl. now rewrite log_snoc2.
  - rewrite H. simpl. now rewrite log_snoc2.
Qed.

(** An attempt that is not retried ends the loop after its call, with no
    backoff. *)
Lemma retry_loop_final (a : nat) (rest : list Z) (w : world) :
  retried max_retries a (remote (gets w) url params) = false ->
  exists r, retry_loop remote url params max_retries (Z.of_nat a :: rest) w
            = Some (r, after_get w url params [])
            /\ classified r.
Proof.
  unfold retried, after_get. intros H. cbn [retry_loop]. run_monad.
  destruct (remote (gets w) url params) as [data| |text]; simpl in H.
  - destruct data; simpl;
      try (eexists; split; [reflexivity | eexists; reflexivity]).
    fold (status_of d). rewrite orb_false_r in H. rewrite H.
    repeat match goal with
           | |- context [if ?b then _ else _] => destruct b; simpl
           end;
      (eexists; split; [reflexivity|]; cbn [classified];
       first [exact I
             | eexists; split;
               [first [apply kind_of_error_denied | apply kind_of_error_invalid
                      | apply kind_of_error_api]
               | discriminate]]).
  - rewrite H. eexists; split; [reflexivity|].
    exists Timeout. split; [reflexivity | discriminate].
  - rewrite H. eexists; split; [reflexivity|].
    exists NetworkError. split; [apply kind_of_error_network | discriminate].
Qed.

Lemma retry_loop_skip (k n a : nat) (w : world) :
  (forall i, (i < k)%nat ->
     retried max_retries (a + i) (remote (gets w + i) url params) = true) ->
  retry_loop remote url params max_retries (map Z.of_nat (seq a (k + n))) w =
  retry_loop remote url params max_retries (map Z.of_nat (seq (a + k) n))
       (mkWorld (gets w + k) (log w ++ backoff_rounds url params a k)).
Proof.
  revert a w; induction k as [|k IH]; intros a w H.
  - simpl. rewrite !Nat.add_0_r, app_nil_r. now destruct w.
  - cbn [Nat.add seq map]. rewrite retry_loop_retried.
    2:{ specialize (H 0%nat). rewrite !Nat.add_0_r in H. apply H. lia. }
    rewrite IH.
    + unfold after_get. cbn [gets log backoff_rounds backoff_round].
      rewrite <- app_assoc. cbn [app].
      now replace (S (gets w) + k)%nat with (gets w + S k)%nat by lia;
        replace (S a + k)%nat with (a + S k)%nat by lia.
    + intros i Hi. unfold after_get. cbn [gets].
      replace (S a + i)%nat with (a + S i)%nat by lia.
      replace (S (gets w) + i)%nat with (gets w + S i)%nat by lia.
      apply H. lia.
Qed.

Lemma count_gets_app (l1 l2 : list event) :
  count_gets (l1 ++ l2) = (count_gets l1 + count_gets l2)%nat.
Proof. unfold count_gets. now rewrite filter_app, length_app. Qed.

Lemma count_gets_backoff_rounds (a k : nat) :
  count_gets (backoff_rounds url params a k) = k.
Proof.
  revert a; induction k as [|k IH]; intros a; [reflexivity|].
  cbn [backoff_rounds]. rewrite count_gets_app, IH. reflexivity.
Qed.

(** Whatever the service answers, the loop ends; its trace is a run of
    retried attempts, each followed by its backoff, and then at most one
    more call. *)
Lemma retry_loop_shape (n a : nat) (w : world) :
  exists r w' k tail,
    retry_loop remote url params max_retries (map Z.of_nat (seq a n)) w = Some (r, w') /\
    classified r /\
    log w' = log w ++ backoff_rounds url params a k ++ tail /\
    (tail = [] \/ tail = [EvGet url params]) /\
    gets w' = (gets w + (k + List.length tail))%nat /\
    (k + List.length tail <= n)%nat.
Proof.
  revert a w; induction n as [|n IH]; intros a w.
  - exists (Ok (PNone, PStr "Max retries exceeded")), w, 0%nat, [].
    simpl. rewrite app_nil_r, Nat.add_0_r. repeat split; auto.
    exists UnknownApiError. split; [reflexivity | discriminate].
  - cbn [seq map].
    destruct (retried max_retries a (remote (gets w) url params)) eqn:E.
    + rewrite (retry_loop_retried a _ w E).
      destruct (IH (S a) (after_get w url params
                  [EvSleep (inject_Z (BACKOFF_FACTOR ^ Z.of_nat a))]))
        as (r & w' & k & tail & Hrun & Hcl & Hlog & Htail & Hgets & Hle).
      exists r, w', (S k), tail. repeat split; try assumption.
      * rewrite Hlog. unfold after_get. cbn [log backoff_rounds backoff_round].
        rewrite <- !app_assoc. reflexivity.
      * rewrite Hgets. unfold after_get. cbn [gets]. lia.
      * lia.
    + destruct (retry_loop_final a (map Z.of_nat (seq (S a) n)) w E)
        as (r & Hr & Hcl).
      exists r, (after_get w url params []), 0%nat, [EvGet url params].
      repeat split; try assumption; simpl; auto; lia.
Qed.

(** Every sleep of a run of rounds comes right after a call, and lasts
    [BACKOFF_FACTOR] to the power of the index of that call. *)
Lemma backoff_rounds_sleep (k first : nat) (pre post : list event) (i : Q) :
  backoff_rounds url params first k = pre ++ EvSleep i :: post ->
  exists a, count_gets pre = S a /\
            i = inject_Z (BACKOFF_FACTOR ^ Z.of_nat (first + a)).
Proof.
  revert first pre; induction k as [|k IH]; intros first pre Hsplit.
  - now destruct pre.
  - cbn [backoff_rounds backoff_round app] in Hsplit.
    destruct pre as [|e1 [|e2 pre]]; cbn [app] in Hsplit.
    + discriminate.
    + injection Hsplit as <- <- _. exists 0%nat.
      now rewrite Nat.add_0_r.
    + injection Hsplit as <- <- Hrest.
      destruct (IH _ _ Hrest) as (a & Ha & Hi).
      exists (S a). split.
      * change (count_gets (backoff_round url params first ++ pre) = S (S a)).
        rewrite count_gets_app, Ha. reflexivity.
      * rewrite Hi. now replace (S first + a)%nat with (first + S a)%nat by lia.
Qed.

End Executor.

(** C2. An attempt that is over the quota, or that times out or meets
    another transport fault before the last index, is followed by a sleep of
    [BACKOFF_FACTOR ^ attempt] = [2 ^ attempt] seconds and by the next
    attempt. Whatever the endpoint, the parameters, the retry ceiling and
    the answers of the service, [make_request_with_retry] returns, after at
    most [max_retries] remote calls; its trace is [k] rounds "call, then sleep
    [BACKOFF_FACTOR ^ i] = [2 ^ i] seconds" for the attempts [i = 0 .. k-1]
    that failed and were retried, followed by at most one last call. So
    every retry is preceded by the sleep of the attempt that just failed,
    and the delay depends on the index of the attempt only. *)
Theorem make_request_with_retry_backoff `{Builtins}
    (remote : nat -> string -> list (string * pyval) -> transport)
    (url : string) (params : list (string * pyval)) (max_retries : Z)
    (w : world) :
  (forall (attempt : nat) (rest : list Z) (w1 : world),
      retried max_retries attempt (remote (gets w1) url params) = true ->
      retry_loop remote url params max_retries (Z.of_nat attempt :: rest) w1
      = retry_loop remote url params max_retries rest
          (after_get w1 url params
             [EvSleep (inject_Z (2 ^ Z.of_nat attempt))])) /\
  exists r w' k tail,
    make_request_with_retry remote url params max_retries w = Some (r, w') /\
    log w' = log w ++ backoff_rounds url params 0 k ++ tail /\
    (tail = [] \/ tail = [EvGet url params]) /\
    (forall seconds pre post,
        backoff_rounds url params 0 k = pre ++ EvSleep seconds :: post ->
        exists attempt, count_gets pre = S attempt /\
                        seconds = inject_Z (2 ^ Z.of_nat attempt)) /\
    count_gets (backoff_rounds url params 0 k ++ tail)
      = (gets w' - gets w)%nat /\
    Z.of_nat (gets w' - gets w) <= Z.max 0 max_retries.
Proof.
  split.
  { intros attempt rest w1 Hretried.
    exact (retry_loop_retried remote url params max_retries attempt rest w1
             Hretried). }
  destruct (retry_loop_shape remote url params max_retries
              (Z.to_nat max_retries) 0 w)
    as (r & w' & k & tail & Hrun & _ & Hlog & Htail & Hgets & Hle).
  exists r, w', k, tail. repeat split; try assumption.
  - intros seconds pre post Hsplit.
    destruct (backoff_rounds_sleep url params _ _ _ _ _ Hsplit)
      as (a & Ha & Hs).
    now exists a.
  - rewrite count_gets_app, count_gets_backoff_rounds, Hgets.
    destruct Htail as [->| ->]; unfold count_gets;
      cbn [filter is_get List.length]; lia.
  - rewrite Hgets. lia.
Qed.

Lemma make_request_with_retry_backoff_witness :
  retried 3 0 (remote_over_limit (gets w0) "u" []) = true /\
  @retry_loop example_builtins remote_over_limit "u" [] 3
    [Z.of_nat 0; 1; 2] w0
  = @retry_loop example_builtins remote_over_limit "u" [] 3 [1; 2]
      (after_get w0 "u" [] [EvSleep (inject_Z (2 ^ Z.of_nat 0))]).
Proof.
  split; [reflexivity|].
  exact (proj1 (@make_request_with_retry_backoff example_builtins
                  remote_over_limit "u" [] 3 w0)
           0%nat [1; 2] w0 eq_refl).
Defined.


Example example_runs :
  @make_request_with_retry example_builtins remote_denied_third "u" [] 3 w0
  = Some (Ok (PNone, PStr "Request denied: The provided API key is invalid."),
          mkWorld 3 [EvGet "u" []; EvSleep (inject_Z 1);
                     EvGet "u" []; EvSleep (inject_Z 2); EvGet "u" []]) /\
  @make_request_with_retry example_builtins remote_over_limit "u" [] 3 w0
  = Some (Ok (PNone, PStr "Max retries exceeded"),
          mkWorld 3 [EvGet "u" []; EvSleep (inject_Z 1);
                     EvGet "u" []; EvSleep (inject_Z 2);
                     EvGet "u" []; EvSleep (inject_Z 4)]) /\
  @make_request_with_retry example_builtins remote_timeout "u" [] 3 w0
  = Some (Ok (PNone, PStr "Request timed out"),
          mkWorld 3 [EvGet "u" []; EvSleep (inject_Z 1);
                     EvGet "u" []; EvSleep (inject_Z 2); EvGet "u" []]) /\
  example_repr (PFloat (FFin (-74))) = "-74.0".
Proof. repeat split; reflexivity. Qed.

(** ** The error taxonomy *)

Section Taxonomy.

Context {B : Builtins}.
Variable remote : nat -> string -> list (string * pyval) -> transport.
Variable url : string.
Variable params : list (string * pyval).
Variable max_retries : Z.
Variable w : world.
Variable k : nat.

Hypothesis Hretried : forall i, (i < k)%nat ->
  retried max_retries i (remote (gets w + i) url params) = true.

(** After [k] retried attempts the loop is at attempt [k], if there is
    one. *)
Lemma make_request_at :
  (k < Z.to_nat max_retries)%nat ->
  make_request_with_retry remote url params max_retries w =
  retry_loop remote url params max_retries
    (Z.of_nat k :: map Z.of_nat (seq (S k) (Z.to_nat max_retries - S k)))
    (after_rounds w url params k).
Proof.
  intros Hk. unfold make_request_with_retry, py_range.
  replace (Z.to_nat max_retries)
    with (k + S (Z.to_nat max_retries - S k))%nat at 1 by lia.
  rewrite retry_loop_skip by exact Hretried. reflexivity.
Qed.

Lemma make_request_exhausted :
  k = Z.to_nat max_retries ->
  make_request_with_retry remote url params max_retries w =
  Some (Ok (PNone, PStr "Max retries exceeded"), after_rounds w url params k).
Proof.
  intros Hk. unfold make_request_with_retry, py_range.
  replace (Z.to_nat max_retries) with (k + 0)%nat by lia.
  rewrite retry_loop_skip by exact Hretried. reflexivity.
Qed.

End Taxonomy.

Lemma after_get_snoc (w : world) (url : string)
    (params : list (string * pyval)) :
  mkWorld (S (gets w)) (log w ++ [EvGet url params]) = after_get w url params [].
Proof. reflexivity. Qed.

(** C3, as amended. Let the attempts [0 .. k-1] be retried (quota exceeded,
    or a transport fault that is not on the last attempt). If attempt [k]
    exists, its answer ends the call at once, with no sleep and no further
    call: status OK or ZERO_RESULTS gives the body; REQUEST_DENIED gives
    "Request denied: <error_message>" (kind Denied); INVALID_REQUEST gives
    "Invalid request: <error_message>" (kind InvalidRequest); any other
    status but OVER_QUERY_LIMIT gives "API error: <status>" (kind
    UnknownApiError); a timeout on the last attempt gives "Request timed
    out" (kind Timeout); another transport fault on the last attempt gives
    "Network error: <fault>" (kind NetworkError). If all [max_retries]
    attempts were retried, the result is "Max retries exceeded" (kind
    UnknownApiError). In every case the result is a body without error, an
    error of a terminal kind, or the exception of a body that is not an
    object. *)
Theorem make_request_with_retry_taxonomy `{Builtins}
    (remote : nat -> string -> list (string * pyval) -> transport)
    (url : string) (params : list (string * pyval)) (max_retries : Z)
    (w : world) (k : nat) :
  (forall i, (i < k)%nat ->
     retried max_retries i (remote (gets w + i)%nat url params) = true) ->
  let run := make_request_with_retry remote url params max_retries w in
  let answer := remote (gets w + k)%nat url params in
  let ended := after_get (after_rounds w url params k) url params [] in
  ((k < Z.to_nat max_retries)%nat ->
   (forall d, answer = Body (PDict d) ->
      (status_of d = PStr "OK" \/ status_of d = PStr "ZERO_RESULTS" ->
       run = Some (Ok (PDict d, PNone), ended)) /\
      (status_of d = PStr "REQUEST_DENIED" ->
       run = Some (Ok (PNone,
                       PStr ("Request denied: "
                             ++ py_str (error_message_of d "Check API key"))),
                   ended)) /\
      (status_of d = PStr "INVALID_REQUEST" ->
       run = Some (Ok (PNone,
                       PStr ("Invalid request: "
                             ++ py_str (error_message_of d "Check parameters"))),
                   ended)) /\
      (py_eq_str (status_of d) "OK" = false ->
       py_eq_str (status_of d) "ZERO_RESULTS" = false ->
       py_eq_str (status_of d) "OVER_QUERY_LIMIT" = false ->
       py_eq_str (status_of d) "REQUEST_DENIED" = false ->
       py_eq_str (status_of d) "INVALID_REQUEST" = false ->
       run = Some (Ok (PNone, PStr ("API error: " ++ py_str (status_of d))),
                   ended))) /\
   (answer = TimeoutExc -> Z.of_nat k = max_retries - 1 ->
    run = Some (Ok (PNone, PStr "Request timed out"), ended)) /\
   (forall text, answer = RequestExc text -> Z.of_nat k = max_retries - 1 ->
    run = Some (Ok (PNone, PStr ("Network error: " ++ text)), ended))) /\
  (k = Z.to_nat max_retries ->
   run = Some (Ok (PNone, PStr "Max retries exceeded"),
               after_rounds w url params k)) /\
  (exists r w', run = Some (r, w') /\ classified r) /\
  (forall m, kind_of_error (PStr ("Request denied: " ++ m)) = Some Denied) /\
  (forall m, kind_of_error (PStr ("Invalid request: " ++ m))
             = Some InvalidRequest) /\
  (forall m, kind_of_error (PStr ("API error: " ++ m))
             = Some UnknownApiError) /\
  kind_of_error (PStr "Request timed out") = Some Timeout /\
  (forall m, kind_of_error (PStr ("Network error: " ++ m))
             = Some NetworkError) /\
  kind_of_error (PStr "Max retries exceeded") = Some UnknownApiError.
Proof.
  intros Hretried run answer ended.
  split; [|split; [|split]].
  - intros Hk. pose proof (make_request_at _ _ _ _ _ _ Hretried Hk) as E.
    cbn [retry_loop] in E. unfold bind at 1, http_get at 1 in E.
    rewrite after_get_snoc in E.
    change (remote (gets (after_rounds w url params k)) url params)
      with answer in E.
    fold ended in E. fold run in E. rewrite E. clear E.
    split; [|split].
    + intros d ->. unfold lift, py_get, bind, ret. fold (status_of d).
      fold (error_message_of d "Check API key").
      fold (error_message_of d "Check parameters").
      repeat split.
      * intros [-> | ->]; reflexivity.
      * intros ->. reflexivity.
      * intros ->. reflexivity.
      * intros -> -> -> -> ->. reflexivity.
    + intros -> Hlast.
      replace (Z.of_nat k <? max_retries - 1) with false
        by (symmetry; apply Z.ltb_ge; lia).
      reflexivity.
    + intros text -> Hlast.
      replace (Z.of_nat k <? max_retries - 1) with false
        by (symmetry; apply Z.ltb_ge; lia).
      reflexivity.
  - intros Hk. apply (make_request_exhausted _ _ _ _ _ _ Hretried Hk).
  - destruct (retry_loop_shape remote url params max_retries
                (Z.to_nat max_retries) 0 w)
      as (r & w' & _ & _ & Hrun & Hcl & _).
    now exists r, w'.
  - repeat split;
      auto using kind_of_error_denied, kind_of_error_invalid,
                 kind_of_error_api, kind_of_error_network.
Qed.

Lemma make_request_with_retry_taxonomy_witness :
  (forall i, (i < 2)%nat ->
     retried 3 i (remote_denied_third (gets w0 + i)%nat "u" []) = true) /\
  @make_request_with_retry example_builtins remote_denied_third "u" [] 3 w0
  = Some (Ok (PNone,
              PStr "Request denied: The provided API key is invalid."),
          after_get (after_rounds w0 "u" [] 2) "u" [] []).
Proof.
  assert (Hyp : forall i, (i < 2)%nat ->
            retried 3 i (remote_denied_third (gets w0 + i)%nat "u" []) = true).
  { intros [|[|i]] Hi; [reflexivity | reflexivity | lia]. }
  split; [exact Hyp|].
  destruct (@make_request_with_retry_taxonomy example_builtins
              remote_denied_third "u" [] 3 w0 2 Hyp) as [Hterminal _].
  assert (Hk : (2 < Z.to_nat 3)%nat) by (simpl; lia).
  destruct (Hterminal Hk) as [Hbody _].
  destruct (Hbody _ eq_refl) as (_ & Hdenied & _).
  exact (Hdenied eq_refl).
Defined.

(** C3, as stated, fails: when every attempt is over the quota the message
    is "Max retries exceeded", not "max retries exceeded"; and when every
    attempt times out, so that all attempts had a retryable classification,
    the result is "Request timed out" (kind Timeout), not the
    max-retries failure. *)
Lemma max_retries_message_counterexample :
  (exists w',
      @make_request_with_retry example_builtins remote_over_limit "u" [] 3 w0
      = Some (Ok (PNone, PStr "Max retries exceeded"), w')) /\
  (forall w',
      @make_request_with_retry example_builtins remote_over_limit "u" [] 3 w0
      <> Some (Ok (PNone, PStr "max retries exceeded"), w')) /\
  (exists w',
      @make_request_with_retry example_builtins remote_timeout "u" [] 3 w0
      = Some (Ok (PNone, PStr "Request timed out"), w')) /\
  kind_of_error (PStr "Request timed out") <> Some UnknownApiError.
Proof.
  split; [eexists; reflexivity|].
  split; [intros w'; vm_compute; discriminate|].
  split; [eexists; reflexivity | discriminate].
Qed.

(** ** The paginated walker *)

Section Walker.

Context {B : Builtins}.
Variable remote : nat -> string -> list (string * pyval) -> transport.

Lemma after_rounds_0 (w : world) (url : string)
    (params : list (string * pyval)) :
  after_rounds w url params 0 = w.
Proof.
  unfold after_rounds. simpl. rewrite Nat.add_0_r, app_nil_r. now destruct w.
Qed.

(** A first answer with status OK or ZERO_RESULTS is returned at once. *)
Lemma make_request_first_ok (url : string) (params : list (string * pyval))
    (w : world) (d : list (string * pyval)) :
  remote (gets w) url params = Body (PDict d) ->
  py_eq_str (status_of d) "OK" || py_eq_str (status_of d) "ZERO_RESULTS"
    = true ->
  make_request_with_retry remote url params MAX_RETRIES w
  = Some (Ok (PDict d, PNone), after_get w url params []).
Proof.
  intros Hd Hs.
  rewrite (make_request_at remote url params MAX_RETRIES w 0).
  - rewrite after_rounds_0. cbn [retry_loop]. unfold bind at 1, http_get at 1.
    rewrite Hd. unfold lift, py_get, bind, ret. fold (status_of d).
    rewrite Hs. reflexivity.
  - intros i Hi. lia.
  - simpl. lia.
Qed.

(** One turn of the page loop on a successful page. *)
Lemma search_loop_page (fuel : nat) (params : list (string * pyval))
    (acc : list pyval) (w : world) (d : list (string * pyval)) :
  remote (gets w) NEARBY_SEARCH_URL params = Body (PDict d) ->
  page_ok d = true ->
  search_loop remote (S fuel) params acc w =
  if truthy (page_token d) then
    search_loop remote fuel (next_params (page_token d))
      (acc ++ page_entries d)
      (after_get w NEARBY_SEARCH_URL params
         [EvSleep PAGE_TOKEN_DELAY; EvSleep REQUEST_DELAY])
  else
    Some (Ok (Some (acc ++ page_entries d), PNone),
          after_get w NEARBY_SEARCH_URL params []).
Proof.
  intros Hd Hok. unfold page_ok in Hok. apply andb_true_iff in Hok.
  destruct Hok as [Hs Hl].
  cbn [search_loop]. unfold bind at 1.
  rewrite (make_request_first_ok _ _ _ _ Hd Hs). cbn [truthy].
  unfold lift, py_get, bind, ret.
  fold (page_results d). fold (page_token d). unfold page_entries.
  destruct (page_results d); try discriminate. cbn [py_extend].
  destruct (truthy (page_token d)); cbn [negb]; [|reflexivity].
  unfold sleep, emit, after_get. cbn [gets log].
  rewrite <- !app_assoc. reflexivity.
Qed.

(** A failed page call ends the walk with its error and no list. *)
Lemma search_loop_error (fuel : nat) (params : list (string * pyval))
    (acc : list pyval) (w w1 : world) (data error : pyval) :
  make_request_with_retry remote NEARBY_SEARCH_URL params MAX_RETRIES w
  = Some (Ok (data, error), w1) ->
  truthy error = true ->
  search_loop remote (S fuel) params acc w = Some (Ok (None, error), w1).
Proof.
  intros Hrun Herr. cbn [search_loop]. unfold bind at 1.
  rewrite Hrun, Herr. reflexivity.
Qed.

Lemma search_loop_pages (pages : list (list (string * pyval))) :
  forall (fuel : nat) (params : list (string * pyval)) (acc : list pyval)
         (w : world),
  chained pages = true ->
  forallb page_ok pages = true ->
  (forall i d url ps, nth_error pages i = Some d ->
                      remote (gets w + i) url ps = Body (PDict d)) ->
  (List.length pages <= fuel)%nat ->
  search_loop remote fuel params acc w
  = Some (Ok (Some (acc ++ List.concat (map page_entries pages)), PNone),
          mkWorld (gets w + List.length pages)
                  (log w ++ walk_trace params pages)).
Proof.
  induction pages as [|d rest IH]; intros fuel params acc w Hch Hok Hrem Hfuel;
    [discriminate|].
  cbn [forallb] in Hok. apply andb_true_iff in Hok. destruct Hok as [Hd Hrest].
  destruct fuel as [|fuel]; [simpl in Hfuel; lia|].
  assert (Hd0 : remote (gets w) NEARBY_SEARCH_URL params = Body (PDict d)).
  { specialize (Hrem 0%nat d NEARBY_SEARCH_URL params eq_refl).
    now rewrite Nat.add_0_r in Hrem. }
  rewrite (search_loop_page _ _ _ _ _ Hd0 Hd).
  destruct rest as [|d' rest'].
  - cbn [chained] in Hch. apply negb_true_iff in Hch. rewrite Hch.
    unfold after_get. cbn. rewrite app_nil_r, Nat.add_1_r. reflexivity.
  - assert (Ht : truthy (page_token d) = true /\ chained (d' :: rest') = true).
    { cbn [chained] in Hch. now apply andb_true_iff in Hch. }
    destruct Ht as [Ht Hch']. rewrite Ht.
    rewrite (IH fuel _ _ _ Hch' Hrest).
    + unfold after_get. cbn [gets log List.length map List.concat walk_trace].
      rewrite <- !app_assoc. cbn [app].
      now replace (S (gets w) + S (List.length rest'))%nat
        with (gets w + S (S (List.length rest')))%nat by lia.
    + intros i x url ps Hi. unfold after_get. cbn [gets].
      replace (S (gets w) + i)%nat with (gets w + S i)%nat by lia.
      apply Hrem. exact Hi.
    + simpl in Hfuel |- *. lia.
Qed.

End Walker.

Lemma waits_walk_trace `{Builtins} (pages : list (list (string * pyval))) :
  forall (params : list (string * pyval)) (since : option Q),
  waits (walk_trace params pages) since =
  match pages with
  | [] => []
  | _ => match since with Some q => [q] | None => [] end
         ++ repeat (0 + PAGE_TOKEN_DELAY + REQUEST_DELAY)%Q
                   (pred (List.length pages))
  end.
Proof.
  induction pages as [|d rest IH]; intros params since; [reflexivity|].
  cbn [walk_trace waits]. f_equal.
  destruct rest as [|d' rest']; [reflexivity|].
  cbn [waits option_map]. rewrite IH. reflexivity.
Qed.

Lemma count_gets_walk_trace `{Builtins} (pages : list (list (string * pyval))) :
  forall params, count_gets (walk_trace params pages) = List.length pages.
Proof.
  induction pages as [|d rest IH]; intros params; [reflexivity|].
  cbn [walk_trace]. destruct rest as [|d' rest']; [reflexivity|].
  change (S (count_gets (walk_trace (next_params (page_token d)) (d' :: rest')))
          = S (List.length (d' :: rest'))).
  now rewrite IH.
Qed.

(** C4. Let the service answer the calls with the successful pages
    [pages], one per call, every page but the last carrying a next-page
    token. Then [nearby_search] returns the entries of all pages, page after
    page and in the order of each page; it issues one call per page, the
    first with the search parameters and each further one with only the key
    and the token of the page before; between two calls it sleeps 2.0 s and
    then 0.1 s; and it stops at the first page without token. For three
    pages that is exactly three calls, each wait being at least 2.0 s. *)
Theorem nearby_search_walks_pages `{Builtins}
    (remote : nat -> string -> list (string * pyval) -> transport)
    (pages : list (list (string * pyval))) (fuel : nat)
    (query : string) (lat lng : pyfloat) (radius_meters : Z) (w : world) :
  chained pages = true ->
  forallb page_ok pages = true ->
  (forall i d url ps, nth_error pages i = Some d ->
                      remote (gets w + i)%nat url ps = Body (PDict d)) ->
  (List.length pages <= fuel)%nat ->
  let trace :=
    walk_trace (first_params query lat lng radius_meters) pages in
  nearby_search remote fuel query lat lng radius_meters w
  = Some (Ok (Some (List.concat (map page_entries pages)), PNone),
          mkWorld (gets w + List.length pages) (log w ++ trace)) /\
  count_gets trace = List.length pages /\
  waits trace None
  = repeat (0 + PAGE_TOKEN_DELAY + REQUEST_DELAY)%Q (pred (List.length pages)) /\
  Forall (fun q => (2 # 1 <= q)%Q) (waits trace None) /\
  (forall d1 d2 d3, pages = [d1; d2; d3] ->
     trace =
     [EvGet NEARBY_SEARCH_URL (first_params query lat lng radius_meters);
      EvSleep (2 # 1); EvSleep (1 # 10);
      EvGet NEARBY_SEARCH_URL
        [("key", PStr GOOGLE_PLACES_API_KEY); ("pagetoken", page_token d1)];
      EvSleep (2 # 1); EvSleep (1 # 10);
      EvGet NEARBY_SEARCH_URL
        [("key", PStr GOOGLE_PLACES_API_KEY); ("pagetoken", page_token d2)]]
     /\ count_gets trace = 3%nat).
Proof.
  intros Hch Hok Hrem Hfuel trace.
  assert (Hw : waits trace None
               = repeat (0 + PAGE_TOKEN_DELAY + REQUEST_DELAY)%Q
                        (pred (List.length pages))).
  { unfold trace. rewrite waits_walk_trace. now destruct pages. }
  split; [|split; [|split; [|split]]].
  - unfold nearby_search.
    apply (search_loop_pages remote pages fuel _ [] w Hch Hok Hrem Hfuel).
  - apply count_gets_walk_trace.
  - exact Hw.
  - rewrite Hw. apply Forall_forall. intros q Hq.
    apply repeat_spec in Hq. subst q. unfold Qle. simpl. lia.
  - intros d1 d2 d3 ->. split; reflexivity.
Qed.

Lemma nearby_search_walks_pages_witness :
  chained [page1; page2; page3] = true /\
  forallb page_ok [page1; page2; page3] = true /\
  (forall i d url ps, nth_error [page1; page2; page3] i = Some d ->
       remote_three_pages (gets w0 + i)%nat url ps = Body (PDict d)) /\
  (List.length [page1; page2; page3] <= 3)%nat /\
  @nearby_search example_builtins remote_three_pages 3 "bakery"
     (FFin 40) (FFin (-74)) 5000 w0
  = Some (Ok (Some [place "A"; place "B"; place "C"; place "D"; place "E"],
              PNone),
          mkWorld 3
            [EvGet NEARBY_SEARCH_URL
               [("key", PStr "k"); ("location", PStr "40.0,-74.0");
                ("radius", PInt 5000); ("keyword", PStr "bakery")];
             EvSleep (2 # 1); EvSleep (1 # 10);
             EvGet NEARBY_SEARCH_URL
               [("key", PStr "k"); ("pagetoken", PStr "t1")];
             EvSleep (2 # 1); EvSleep (1 # 10);
             EvGet NEARBY_SEARCH_URL
               [("key", PStr "k"); ("pagetoken", PStr "t2")]]).
Proof.
  assert (Hrem : forall i d url ps,
             nth_error [page1; page2; page3] i = Some d ->
             remote_three_pages (gets w0 + i)%nat url ps = Body (PDict d)).
  { intros i d url ps Hi. unfold remote_three_pages. cbn [gets w0 Nat.add].
    now rewrite Hi. }
  split; [reflexivity|]. split; [reflexivity|]. split; [exact Hrem|].
  split; [simpl; lia|].
  exact (proj1 (@nearby_search_walks_pages example_builtins remote_three_pages
                  [page1; page2; page3] 3 "bakery" (FFin 40) (FFin (-74))
                  5000 w0 eq_refl eq_refl Hrem (le_n 3))).
Defined.

(** ** The handler *)

Section Handler.

Context {B : Builtins}.
Variable remote : nat -> string -> list (string * pyval) -> transport.

(** A request that passes the checks goes through the two phases, with the
    radius clamped from above. *)
Lemma search_body_validated (fuel : nat) (data : pyval) (w : world)
    (query : string) (lat lng : pyfloat) (radius_meters min_reviews : Z) :
  validated data = Some (query, lat, lng, radius_meters, min_reviews) ->
  search_body remote fuel data w =
  ('(nearby_results, error) <-
       nearby_search remote fuel query lat lng (Z.min radius_meters 50000) ;;
   if truthy error then ret (jsonify [("error", error)], 500)
   else
     match nearby_results with
     | None | Some [] =>
         ret (jsonify [("results", PList []);
                       ("message", PStr "No results found")], 200)
     | Some nearby_results =>
         filtered_results <- enrich remote min_reviews nearby_results [] ;;
         ret (jsonify
                [("results", PList filtered_results);
                 ("total_found", PInt (Z.of_nat (List.length nearby_results)));
                 ("filtered_count",
                  PInt (Z.of_nat (List.length filtered_results)))],
              200)
     end) w.
Proof.
  destruct data as [| | | | |l|d]; try discriminate.
  unfold validated, search_body, py_get, lift, py_strip_method.
  destruct (get_or d "query" (PStr "")) as [| | | |q| |]; try discriminate.
  unfold bind at 1 2 3 4 5 6, ret. cbn [truthy].
  destruct (py_strip q =? "")%string; [discriminate|]. cbn [negb].
  destruct (is_none (get_or d "lat" PNone) || is_none (get_or d "lng" PNone));
    [discriminate|].
  destruct (convert _ _ _ _) as [[[[a b] c] e]|]; [|discriminate].
  cbn [fst snd]. intros [= <- <- <- <- <-]. reflexivity.
Qed.

(** A request that fails a check or a conversion is answered without any
    call, sleep or print. *)
Lemma search_body_rejected (fuel : nat) (data : pyval) (w : world) :
  validated data = None ->
  exists r, search_body remote fuel data w = Some (r, w) /\
            match r with
            | Ok (_, code) => code = 400
            | Err _ => True
            end.
Proof.
  destruct data as [| | | | |l|d];
    try (intros _; eexists; split; [reflexivity | exact I]).
  unfold validated, search_body, py_get, lift, py_strip_method.
  destruct (get_or d "query" (PStr "")) as [| | | |q| |];
    try (intros _; eexists; split; [reflexivity | exact I]).
  unfold bind at 1 2 3 4 5 6, ret. cbn [truthy].
  destruct (py_strip q =? "")%string;
    [intros _; eexists; split; reflexivity|]. cbn [negb].
  destruct (is_none (get_or d "lat" PNone) || is_none (get_or d "lng" PNone));
    [intros _; eexists; split; reflexivity|].
  destruct (convert _ _ _ _) as [[[[a b] c] e]|[]]; [discriminate| | | |];
    intros _; eexists; (split; [reflexivity|]); first [reflexivity | exact I].
Qed.

(** *** The enrichment loop *)

Lemma enrich_one_no_id (min_reviews : Z) (acc : list pyval)
    (place place_id : pyval) (w : world) :
  py_get place "place_id" PNone = Ok place_id ->
  truthy place_id = false ->
  enrich_one remote min_reviews acc place w = Some (Ok acc, w).
Proof.
  intros Hid Hf. unfold enrich_one. rewrite Hid. unfold lift, bind at 1, ret.
  now rewrite Hf.
Qed.

Lemma enrich_one_failed (min_reviews : Z) (acc : list pyval)
    (place place_id details error : pyval) (w w1 : world) :
  py_get place "place_id" PNone = Ok place_id ->
  truthy place_id = true ->
  get_place_details remote place_id (after_delay w)
  = Some (Ok (details, error), w1) ->
  truthy error = true ->
  enrich_one remote min_reviews acc place w
  = Some (Ok acc, after_print w1 place_id error).
Proof.
  intros Hid Ht Hcall Herr. unfold enrich_one. rewrite Hid.
  unfold lift, bind at 1, ret. rewrite Ht. cbn [negb].
  unfold bind at 1, sleep at 1, emit at 1. fold (after_delay w).
  unfold bind at 1. rewrite Hcall, Herr. reflexivity.
Qed.

Lemma enrich_one_fetched (min_reviews : Z) (acc : list pyval)
    (place place_id details error : pyval) (w w1 : world) :
  py_get place "place_id" PNone = Ok place_id ->
  truthy place_id = true ->
  get_place_details remote place_id (after_delay w)
  = Some (Ok (details, error), w1) ->
  truthy error = false ->
  enrich_one remote min_reviews acc place w =
  match filter_place details min_reviews with
  | Err e => Some (Err e, w1)
  | Ok false => Some (Ok acc, w1)
  | Ok true =>
      match make_record details place_id with
      | Err e => Some (Err e, w1)
      | Ok record => Some (Ok (acc ++ [record]), w1)
      end
  end.
Proof.
  intros Hid Ht Hcall Herr. unfold enrich_one. rewrite Hid.
  unfold lift, bind at 1, ret. rewrite Ht. cbn [negb].
  unfold bind at 1, sleep at 1, emit at 1. fold (after_delay w).
  unfold bind at 1. rewrite Hcall, Herr.
  destruct (filter_place details min_reviews) as [[|]|e]; try reflexivity.
  unfold bind, raise.
  destruct (make_record details place_id); reflexivity.
Qed.

(** A turn of the loop leaves [filtered_results] as it was or appends the
    record of the place. *)
Lemma enrich_one_inv (min_reviews : Z) (acc out : list pyval) (place : pyval)
    (w w' : world) :
  enrich_one remote min_reviews acc place w = Some (Ok out, w') ->
  out = acc \/
  exists record, kept_record remote min_reviews place record /\
                 out = acc ++ [record].
Proof.
  intros Hrun.
  destruct (py_get place "place_id" PNone) as [place_id|e] eqn:Hid.
  2:{ unfold enrich_one in Hrun. rewrite Hid in Hrun. discriminate. }
  destruct (truthy place_id) eqn:Ht.
  2:{ rewrite (enrich_one_no_id _ _ _ _ _ Hid Ht) in Hrun.
      left. now injection Hrun. }
  destruct (get_place_details remote place_id (after_delay w))
    as [[[[details error]|e] w1]|] eqn:Hcall.
  - destruct (truthy error) eqn:Herr.
    + rewrite (enrich_one_failed _ _ _ _ _ _ _ _ Hid Ht Hcall Herr) in Hrun.
      left. now injection Hrun.
    + rewrite (enrich_one_fetched _ _ _ _ _ _ _ _ Hid Ht Hcall Herr) in Hrun.
      destruct (filter_place details min_reviews) as [[|]|e] eqn:Hf;
        try discriminate.
      * destruct (make_record details place_id) as [record|e] eqn:Hm;
          try discriminate.
        right. exists record. split; [|now injection Hrun].
        now exists place_id, details, error, (after_delay w), w1.
      * left. now injection Hrun.
  - unfold enrich_one in Hrun. rewrite Hid in Hrun.
    unfold lift, bind at 1, ret in Hrun. rewrite Ht in Hrun.
    cbn [negb] in Hrun. unfold bind at 1, sleep at 1, emit at 1 in Hrun.
    fold (after_delay w) in Hrun. unfold bind at 1 in Hrun.
    rewrite Hcall in Hrun. discriminate.
  - unfold enrich_one in Hrun. rewrite Hid in Hrun.
    unfold lift, bind at 1, ret in Hrun. rewrite Ht in Hrun.
    cbn [negb] in Hrun. unfold bind at 1, sleep at 1, emit at 1 in Hrun.
    fold (after_delay w) in Hrun. unfold bind at 1 in Hrun.
    rewrite Hcall in Hrun. discriminate.
Qed.

(** The loop keeps the order of the places and appends at most one record
    per place. *)
Lemma enrich_inv (min_reviews : Z) (places : list pyval) :
  forall (acc out : list pyval) (w w' : world),
  enrich remote min_reviews places acc w = Some (Ok out, w') ->
  exists kept : list (pyval * pyval),
    subseq (map fst kept) places /\
    out = acc ++ map snd kept /\
    Forall (fun pr => kept_record remote min_reviews (fst pr) (snd pr)) kept.
Proof.
  induction places as [|place rest IH]; intros acc out w w' Hrun.
  - injection Hrun as <- _. exists []. rewrite app_nil_r.
    repeat split; constructor.
  - cbn [enrich] in Hrun. unfold bind in Hrun.
    destruct (enrich_one remote min_reviews acc place w)
      as [[[acc1|e] w1]|] eqn:Hone; try discriminate.
    destruct (IH _ _ _ _ Hrun) as (kept & Hsub & Hout & Hall).
    destruct (enrich_one_inv _ _ _ _ _ _ Hone) as [->|(record & Hk & ->)].
    + exists kept. repeat split; [now constructor | assumption | assumption].
    + exists ((place, record) :: kept). repeat split.
      * now constructor.
      * rewrite Hout, <- app_assoc. reflexivity.
      * now constructor.
Qed.

Lemma make_record_view (details place_id record : pyval) (min_reviews : Z) :
  make_record details place_id = Ok record ->
  filter_place (record_view record) min_reviews
  = filter_place details min_reviews.
Proof.
  destruct details; try discriminate.
  unfold make_record, py_get. intros [= <-]. reflexivity.
Qed.

(** *** Outcomes of a request that passes the checks *)

Section Validated.

Variables (fuel : nat) (data : pyval) (w : world).
Variables (query : string) (lat lng : pyfloat) (radius_meters min_reviews : Z).
Hypothesis Hvalid :
  validated data = Some (query, lat, lng, radius_meters, min_reviews).

Lemma search_phase_failed (error : pyval) (nearby : option (list pyval))
    (w1 : world) :
  nearby_search remote fuel query lat lng (Z.min radius_meters 50000) w
  = Some (Ok (nearby, error), w1) ->
  truthy error = true ->
  search remote fuel data w = Some (Ok (jsonify [("error", error)], 500), w1).
Proof.
  intros Hrun Herr. unfold search.
  rewrite (search_body_validated _ _ _ _ _ _ _ _ Hvalid).
  unfold bind at 1. rewrite Hrun, Herr. reflexivity.
Qed.

Lemma search_no_results (error : pyval) (nearby : option (list pyval))
    (w1 : world) :
  nearby_search remote fuel query lat lng (Z.min radius_meters 50000) w
  = Some (Ok (nearby, error), w1) ->
  truthy error = false ->
  nearby = None \/ nearby = Some [] ->
  search remote fuel data w
  = Some (Ok (jsonify [("results", PList []);
                       ("message", PStr "No results found")], 200), w1).
Proof.
  intros Hrun Herr Hn. unfold search.
  rewrite (search_body_validated _ _ _ _ _ _ _ _ Hvalid).
  unfold bind at 1. rewrite Hrun, Herr. destruct Hn as [-> | ->]; reflexivity.
Qed.

Lemma search_completed (error : pyval) (nearby filtered : list pyval)
    (w1 w2 : world) :
  nearby_search remote fuel query lat lng (Z.min radius_meters 50000) w
  = Some (Ok (Some nearby, error), w1) ->
  truthy error = false ->
  nearby <> [] ->
  enrich remote min_reviews nearby [] w1 = Some (Ok filtered, w2) ->
  search remote fuel data w
  = Some (Ok (jsonify
                [("results", PList filtered);
                 ("total_found", PInt (Z.of_nat (List.length nearby)));
                 ("filtered_count", PInt (Z.of_nat (List.length filtered)))],
              200), w2).
Proof.
  intros Hrun Herr Hne Hen. unfold search.
  rewrite (search_body_validated _ _ _ _ _ _ _ _ Hvalid).
  unfold bind at 1. rewrite Hrun, Herr.
  destruct nearby as [|p ps]; [congruence|].
  unfold bind. rewrite Hen. reflexivity.
Qed.

End Validated.

(** A response with the three keys can only come from a request that went
    through both phases. *)
Lemma search_completed_inv (fuel : nat) (data : pyval) (w w' : world)
    (filtered : list pyval) (total count : pyval) :
  search remote fuel data w
  = Some (Ok (jsonify [("results", PList filtered); ("total_found", total);
                       ("filtered_count", count)], 200), w') ->
  exists query lat lng radius_meters min_reviews nearby error w1,
    validated data = Some (query, lat, lng, radius_meters, min_reviews) /\
    nearby_search remote fuel query lat lng (Z.min radius_meters 50000) w
    = Some (Ok (Some nearby, error), w1) /\
    truthy error = false /\
    nearby <> [] /\
    enrich remote min_reviews nearby [] w1 = Some (Ok filtered, w') /\
    total = PInt (Z.of_nat (List.length nearby)) /\
    count = PInt (Z.of_nat (List.length filtered)).
Proof.
  intros Hrun.
  destruct (validated data) as [[[[[query lat] lng] radius_meters] min_reviews]|]
    eqn:Hvalid.
  2:{ destruct (search_body_rejected fuel data w Hvalid) as (r & Hr & Hcode).
      unfold search in Hrun. rewrite Hr in Hrun.
      destruct r as [[body code]|e]; [|discriminate].
      injection Hrun as _ Hc _. subst code. discriminate. }
  exists query, lat, lng, radius_meters, min_reviews.
  unfold search in Hrun.
  rewrite (search_body_validated _ _ _ _ _ _ _ _ Hvalid) in Hrun.
  unfold bind at 1 in Hrun.
  destruct (nearby_search remote fuel query lat lng
              (Z.min radius_meters 50000) w)
    as [[[[nearby error]|e] w1]|]; try discriminate.
  destruct (truthy error) eqn:Herr; [discriminate|].
  destruct nearby as [[|p ps]|]; try discriminate.
  unfold bind in Hrun.
  destruct (enrich remote min_reviews (p :: ps) [] w1)
    as [[[out|e] w2]|] eqn:Hen; try discriminate.
  injection Hrun as <- <- <- <-.
  exists (p :: ps), error, w1. repeat split; auto. discriminate.
Qed.

End Handler.

(** ** The enrichment phase *)

Lemma get_place_details_error `{Builtins}
    (remote : nat -> string -> list (string * pyval) -> transport)
    (place_id data error : pyval) (w w1 : world) :
  make_request_with_retry remote PLACE_DETAILS_URL (detail_params place_id)
    MAX_RETRIES w = Some (Ok (data, error), w1) ->
  truthy error = true ->
  get_place_details remote place_id w = Some (Ok (PNone, error), w1).
Proof.
  intros Hrun Herr. unfold get_place_details, bind.
  fold (detail_params place_id). rewrite Hrun, Herr. reflexivity.
Qed.

(** C5. When the detail call for a place fails, the turn of the loop prints
    the failure, leaves [filtered_results] as it was and the loop goes on
    with the remaining places. A request that goes through both phases is
    answered with [total_found] the number of places the search phase
    returned and [filtered_count] the length of [results]. With two places,
    the detail call failing for the first and giving 25 reviews and an empty
    website for the second, and [min_reviews = 20]: [total_found] is 2,
    [filtered_count] is 1 and [results] is the record of the second place
    alone. *)
Theorem enrichment_absorbs_failures `{Builtins}
    (remote : nat -> string -> list (string * pyval) -> transport) :
  (forall (min_reviews : Z) (place place_id data error : pyval)
          (rest acc : list pyval) (w w1 : world),
      py_get place "place_id" PNone = Ok place_id ->
      truthy place_id = true ->
      make_request_with_retry remote PLACE_DETAILS_URL
        (detail_params place_id) MAX_RETRIES (after_delay w)
      = Some (Ok (data, error), w1) ->
      truthy error = true ->
      enrich remote min_reviews (place :: rest) acc w
      = enrich remote min_reviews rest acc (after_print w1 place_id error)) /\
  (forall (fuel : nat) (request : pyval) (w w1 w2 : world) (query : string)
          (lat lng : pyfloat) (radius_meters min_reviews : Z)
          (error : pyval) (nearby filtered : list pyval),
      validated request
      = Some (query, lat, lng, radius_meters, min_reviews) ->
      nearby_search remote fuel query lat lng (Z.min radius_meters 50000) w
      = Some (Ok (Some nearby, error), w1) ->
      truthy error = false ->
      nearby <> [] ->
      enrich remote min_reviews nearby [] w1 = Some (Ok filtered, w2) ->
      search remote fuel request w
      = Some (Ok (jsonify
                    [("results", PList filtered);
                     ("total_found", PInt (Z.of_nat (List.length nearby)));
                     ("filtered_count",
                      PInt (Z.of_nat (List.length filtered)))],
                  200), w2)) /\
  (exists w',
      @search example_builtins remote_bakery 1 bakery_request w0
      = Some (Ok (jsonify [("results", PList [record_B]);
                           ("total_found", PInt 2);
                           ("filtered_count", PInt 1)], 200), w') /\
      count_gets (log w') = 5%nat).
Proof.
  split; [|split].
  - intros min_reviews place place_id data error rest acc w w1
           Hid Ht Hrun Herr.
    cbn [enrich]. unfold bind at 1.
    rewrite (enrich_one_failed remote min_reviews acc place place_id PNone
               error w w1 Hid Ht
               (get_place_details_error remote _ _ _ _ _ Hrun Herr) Herr).
    reflexivity.
  - intros fuel request w w1 w2 query lat lng radius_meters min_reviews
           error nearby filtered Hvalid Hsearch Herr Hne Hen.
    exact (search_completed remote fuel request w query lat lng radius_meters
             min_reviews Hvalid error nearby filtered w1 w2
             Hsearch Herr Hne Hen).
  - eexists. split; reflexivity.
Qed.

Lemma enrichment_absorbs_failures_witness :
  py_get (place "A") "place_id" PNone = Ok (PStr "A") /\
  truthy (PStr "A") = true /\
  truthy (PStr "Request timed out") = true /\
  exists w1,
    @make_request_with_retry example_builtins remote_bakery PLACE_DETAILS_URL
      (@detail_params example_builtins (PStr "A")) MAX_RETRIES
      (after_delay w0)
    = Some (Ok (PNone, PStr "Request timed out"), w1) /\
    @enrich example_builtins remote_bakery 20 [place "A"; place "B"] [] w0
    = @enrich example_builtins remote_bakery 20 [place "B"] []
        (@after_print example_builtins w1 (PStr "A")
           (PStr "Request timed out")).
Proof.
  split; [reflexivity|]. split; [reflexivity|]. split; [reflexivity|].
  eexists. split; [reflexivity|].
  apply (proj1 (@enrichment_absorbs_failures example_builtins remote_bakery)
           20 (place "A") (PStr "A") PNone (PStr "Request timed out")
           [place "B"] [] w0 _ eq_refl eq_refl eq_refl eq_refl).
Defined.

(** ** Failure of the search phase *)

Lemma search_loop_outcome `{Builtins}
    (remote : nat -> string -> list (string * pyval) -> transport)
    (fuel : nat) :
  forall (params : list (string * pyval)) (acc : list pyval) (w w' : world)
         (r : option (list pyval)) (e : pyval),
  search_loop remote fuel params acc w = Some (Ok (r, e), w') ->
  (exists l, r = Some l /\ e = PNone) \/ (r = None /\ truthy e = true).
Proof.
  induction fuel as [|fuel IH]; intros params acc w w' r e Hrun;
    [discriminate|].
  cbn [search_loop] in Hrun. unfold bind at 1 in Hrun.
  destruct (make_request_with_retry remote NEARBY_SEARCH_URL params
              MAX_RETRIES w) as [[[[data error]|ex] w1]|]; try discriminate.
  destruct (truthy error) eqn:Herr.
  - injection Hrun as <- <- _. now right.
  - unfold bind at 1 in Hrun.
    destruct (lift (py_get data "results" (PList [])) w1)
      as [[[results|ex] w2]|]; try discriminate.
    unfold bind at 1 in Hrun.
    destruct (lift (py_extend acc results) w2)
      as [[[acc'|ex] w3]|]; try discriminate.
    unfold bind at 1 in Hrun.
    destruct (lift (py_get data "next_page_token" PNone) w3)
      as [[[token|ex] w4]|]; try discriminate.
    destruct (truthy token); cbn [negb] in Hrun.
    + unfold bind, sleep, emit in Hrun. apply IH in Hrun. exact Hrun.
    + injection Hrun as <- <- _. left. now exists acc'.
Qed.

(** C6. When a page call fails, the walk ends at once with that error and
    no list, whatever was accumulated before; the walker hands back either
    a list and no error or an error and no list; and the handler answers the
    failure of the search phase with status 500 and the error message. Two
    pages followed by a denied third call are answered with the message of
    the denial alone. *)
Theorem search_phase_is_all_or_nothing `{Builtins}
    (remote : nat -> string -> list (string * pyval) -> transport) :
  (forall (fuel : nat) (params : list (string * pyval)) (acc : list pyval)
          (w w1 : world) (data error : pyval),
      make_request_with_retry remote NEARBY_SEARCH_URL params MAX_RETRIES w
      = Some (Ok (data, error), w1) ->
      truthy error = true ->
      search_loop remote (S fuel) params acc w
      = Some (Ok (None, error), w1)) /\
  (forall (fuel : nat) (query : string) (lat lng : pyfloat)
          (radius_meters : Z) (w w' : world) (r : option (list pyval))
          (e : pyval),
      nearby_search remote fuel query lat lng radius_meters w
      = Some (Ok (r, e), w') ->
      (exists l, r = Some l /\ e = PNone) \/ (r = None /\ truthy e = true)) /\
  (forall (fuel : nat) (request : pyval) (w w1 : world) (query : string)
          (lat lng : pyfloat) (radius_meters min_reviews : Z)
          (error : pyval) (nearby : option (list pyval)),
      validated request
      = Some (query, lat, lng, radius_meters, min_reviews) ->
      nearby_search remote fuel query lat lng (Z.min radius_meters 50000) w
      = Some (Ok (nearby, error), w1) ->
      truthy error = true ->
      search remote fuel request w
      = Some (Ok (jsonify [("error", error)], 500), w1)) /\
  (exists w',
      @nearby_search example_builtins remote_denied_page3 3 "bakery"
         (FFin 40) (FFin (-74)) 5000 w0
      = Some (Ok (None, PStr "Request denied: Quota revoked"), w') /\
      @search example_builtins remote_denied_page3 3 bakery_request w0
      = Some (Ok (jsonify [("error", PStr "Request denied: Quota revoked")],
                  500), w') /\
      count_gets (log w') = 3%nat).
Proof.
  split; [|split; [|split]].
  - intros fuel params acc w w1 data error Hrun Herr.
    exact (search_loop_error remote fuel params acc w w1 data error Hrun Herr).
  - intros fuel query lat lng radius_meters w w' r e Hrun.
    exact (search_loop_outcome remote fuel _ _ _ _ _ _ Hrun).
  - intros fuel request w w1 query lat lng radius_meters min_reviews error
           nearby Hvalid Hrun Herr.
    exact (search_phase_failed remote fuel request w query lat lng
             radius_meters min_reviews Hvalid error nearby w1 Hrun Herr).
  - eexists. repeat split; reflexivity.
Qed.

Lemma search_phase_is_all_or_nothing_witness :
  exists w1,
    @make_request_with_retry example_builtins remote_denied_third
      NEARBY_SEARCH_URL [] MAX_RETRIES w0
    = Some (Ok (PNone,
                PStr "Request denied: The provided API key is invalid."), w1)
    /\ truthy (PStr "Request denied: The provided API key is invalid.") = true
    /\ @search_loop example_builtins remote_denied_third 1 [] [place "A"] w0
       = Some (Ok (None,
                   PStr "Request denied: The provided API key is invalid."),
               w1).
Proof.
  eexists. split; [reflexivity|]. split; [reflexivity|].
  apply (proj1 (@search_phase_is_all_or_nothing example_builtins
                  remote_denied_third)
           0%nat [] [place "A"] w0 _ PNone
           (PStr "Request denied: The provided API key is invalid.")
           eq_refl eq_refl).
Defined.

(** ** The invariant of the result *)

(** C7. In the answer to a request that went through both phases, the
    records of [results] are the records of some of the places the search
    phase returned, in the order of that list, one record per kept place
    (nothing is merged or reordered); each comes from details that pass
    [filter_place] for the [min_reviews] of the request, and each record,
    read back as a detail record, passes [filter_place] itself. The list of
    the search phase is the concatenation of the pages, page after page and
    in the order of each page. *)
Theorem filtered_places_invariant `{Builtins}
    (remote : nat -> string -> list (string * pyval) -> transport) :
  (forall (fuel : nat) (request : pyval) (w w' : world)
          (filtered : list pyval) (total count : pyval),
      search remote fuel request w
      = Some (Ok (jsonify [("results", PList filtered);
                           ("total_found", total);
                           ("filtered_count", count)], 200), w') ->
      exists query lat lng radius_meters min_reviews nearby error w1 kept,
        validated request
        = Some (query, lat, lng, radius_meters, min_reviews) /\
        nearby_search remote fuel query lat lng (Z.min radius_meters 50000) w
        = Some (Ok (Some nearby, error), w1) /\
        subseq (map fst kept) nearby /\
        filtered = map snd kept /\
        Forall (fun pr => kept_record remote min_reviews (fst pr) (snd pr))
               kept /\
        Forall (fun record =>
                  filter_place (record_view record) min_reviews = Ok true)
               filtered) /\
  (forall (pages : list (list (string * pyval))) (fuel : nat)
          (query : string) (lat lng : pyfloat) (radius_meters : Z)
          (w : world),
      chained pages = true ->
      forallb page_ok pages = true ->
      (forall i d url ps, nth_error pages i = Some d ->
                          remote (gets w + i)%nat url ps = Body (PDict d)) ->
      (List.length pages <= fuel)%nat ->
      exists w',
        nearby_search remote fuel query lat lng radius_meters w
        = Some (Ok (Some (List.concat (map page_entries pages)), PNone), w')).
Proof.
  split.
  - intros fuel request w w' filtered total count Hrun.
    destruct (search_completed_inv remote fuel request w w' filtered total
                count Hrun)
      as (query & lat & lng & radius_meters & min_reviews & nearby & error
          & w1 & Hvalid & Hsearch & Herr & Hne & Hen & _ & _).
    destruct (enrich_inv remote min_reviews nearby [] filtered w1 w' Hen)
      as (kept & Hsub & Hout & Hall).
    exists query, lat, lng, radius_meters, min_reviews, nearby, error, w1, kept.
    repeat split; try assumption.
    rewrite Hout. apply Forall_forall. intros record Hin.
    apply in_map_iff in Hin. destruct Hin as ([place0 record0] & <- & Hin).
    rewrite Forall_forall in Hall. specialize (Hall _ Hin).
    destruct Hall as (place_id & details & e & wa & wb & _ & _ & _ & _
                      & Hf & Hm).
    cbn [snd fst] in *. now rewrite (make_record_view _ _ _ _ Hm).
  - intros pages fuel query lat lng radius_meters w Hch Hok Hrem Hfuel.
    eexists. unfold nearby_search.
    apply (search_loop_pages remote pages fuel _ [] w Hch Hok Hrem Hfuel).
Qed.

Lemma filtered_places_invariant_witness :
  exists w',
    @search example_builtins remote_bakery 1 bakery_request w0
    = Some (Ok (jsonify [("results", PList [record_B]);
                         ("total_found", PInt 2);
                         ("filtered_count", PInt 1)], 200), w') /\
    exists query lat lng radius_meters min_reviews nearby error w1 kept,
      @validated example_builtins bakery_request
      = Some (query, lat, lng, radius_meters, min_reviews) /\
      @nearby_search example_builtins remote_bakery 1 query lat lng
        (Z.min radius_meters 50000) w0
      = Some (Ok (Some nearby, error), w1) /\
      subseq (map fst kept) nearby /\
      [record_B] = map snd kept /\
      Forall (fun pr => @kept_record example_builtins remote_bakery
                          min_reviews (fst pr) (snd pr)) kept /\
      Forall (fun record =>
                filter_place (record_view record) min_reviews = Ok true)
             [record_B].
Proof.
  eexists. split; [reflexivity|].
  apply (proj1 (@filtered_places_invariant example_builtins remote_bakery)
           1%nat bakery_request w0 _ [record_B] (PInt 2) (PInt 1) eq_refl).
Defined.

(** ** Responses of the handler *)

Lemma search_query_required `{Builtins}
    (remote : nat -> string -> list (string * pyval) -> transport)
    (fuel : nat) (d : list (string * pyval)) (w : world) (s : string) :
  get_or d "query" (PStr "") = PStr s ->
  py_strip s = "" ->
  search remote fuel (PDict d) w
  = Some (Ok (jsonify [("error", PStr "Business query is required")], 400), w).
Proof.
  intros Hq Hs. unfold search, search_body, py_get, lift.
  rewrite Hq. unfold py_strip_method, bind at 1 2 3 4 5 6, ret.
  rewrite Hs. reflexivity.
Qed.

Lemma search_coordinates_required `{Builtins}
    (remote : nat -> string -> list (string * pyval) -> transport)
    (fuel : nat) (d : list (string * pyval)) (w : world) (s : string) :
  get_or d "query" (PStr "") = PStr s ->
  py_strip s <> "" ->
  get_or d "lat" PNone = PNone \/ get_or d "lng" PNone = PNone ->
  search remote fuel (PDict d) w
  = Some (Ok (jsonify [("error", PStr "Location coordinates are required")],
              400), w).
Proof.
  intros Hq Hs Hc. unfold search, search_body, py_get, lift.
  rewrite Hq. unfold py_strip_method, bind at 1 2 3 4 5 6, ret.
  cbn [truthy]. apply String.eqb_neq in Hs. rewrite Hs. cbn [negb].
  destruct Hc as [-> | ->]; cbn [is_none orb]; [reflexivity|].
  now rewrite orb_true_r.
Qed.

(** C9, as amended. For a request body that is a JSON object: if the query
    is missing, or is a string that is empty once stripped, the answer is
    400 and nothing was called; if the query is a string that is not blank
    and a coordinate is missing or null, the answer is 400 and nothing was
    called. A request that goes through both phases with at least one place
    is answered 200 with [results], [total_found] and [filtered_count]; when
    the search phase finds no place the answer is 200 with an empty
    [results] and the message "No results found". *)
Theorem search_responses `{Builtins}
    (remote : nat -> string -> list (string * pyval) -> transport) :
  (forall (fuel : nat) (d : list (string * pyval)) (w : world),
      assoc d "query" = None \/
      (exists s, assoc d "query" = Some (PStr s) /\ py_strip s = "") ->
      search remote fuel (PDict d) w
      = Some (Ok (jsonify [("error", PStr "Business query is required")],
                  400), w)) /\
  (forall (fuel : nat) (d : list (string * pyval)) (w : world) (s : string),
      assoc d "query" = Some (PStr s) ->
      py_strip s <> "" ->
      assoc d "lat" = None \/ assoc d "lat" = Some PNone \/
      assoc d "lng" = None \/ assoc d "lng" = Some PNone ->
      search remote fuel (PDict d) w
      = Some (Ok (jsonify
                    [("error", PStr "Location coordinates are required")],
                  400), w)) /\
  (forall (fuel : nat) (request : pyval) (w w1 w2 : world) (query : string)
          (lat lng : pyfloat) (radius_meters min_reviews : Z)
          (error : pyval) (nearby filtered : list pyval),
      validated request
      = Some (query, lat, lng, radius_meters, min_reviews) ->
      nearby_search remote fuel query lat lng (Z.min radius_meters 50000) w
      = Some (Ok (Some nearby, error), w1) ->
      truthy error = false ->
      (nearby <> [] ->
       enrich remote min_reviews nearby [] w1 = Some (Ok filtered, w2) ->
       search remote fuel request w
       = Some (Ok (jsonify
                     [("results", PList filtered);
                      ("total_found", PInt (Z.of_nat (List.length nearby)));
                      ("filtered_count",
                       PInt (Z.of_nat (List.length filtered)))],
                   200), w2)) /\
      (nearby = [] ->
       search remote fuel request w
       = Some (Ok (jsonify [("results", PList []);
                            ("message", PStr "No results found")], 200),
               w1))).
Proof.
  split; [|split].
  - intros fuel d w [Hq | (s & Hq & Hs)].
    + apply (search_query_required remote fuel d w "");
        [unfold get_or; now rewrite Hq | reflexivity].
    + apply (search_query_required remote fuel d w s);
        [unfold get_or; now rewrite Hq | exact Hs].
  - intros fuel d w s Hq Hs Hc.
    apply (search_coordinates_required remote fuel d w s);
      [unfold get_or; now rewrite Hq | exact Hs |].
    unfold get_or.
    destruct Hc as [-> | [-> | [-> | ->]]]; auto.
  - intros fuel request w w1 w2 query lat lng radius_meters min_reviews
           error nearby filtered Hvalid Hsearch Herr.
    split.
    + intros Hne Hen.
      exact (search_completed remote fuel request w query lat lng
               radius_meters min_reviews Hvalid error nearby filtered w1 w2
               Hsearch Herr Hne Hen).
    + intros ->.
      exact (search_no_results remote fuel request w query lat lng
               radius_meters min_reviews Hvalid error (Some []) w1
               Hsearch Herr (or_intror eq_refl)).
Qed.

Lemma search_responses_witness :
  (assoc [("query", PStr "  "); ("lat", PInt 1)] "query" = None \/
   exists s, assoc [("query", PStr "  "); ("lat", PInt 1)] "query"
             = Some (PStr s) /\ py_strip s = "") /\
  @search example_builtins remote_nothing 1
     (PDict [("query", PStr "  "); ("lat", PInt 1)]) w0
  = Some (Ok (jsonify [("error", PStr "Business query is required")], 400),
          w0).
Proof.
  assert (Hyp : assoc [("query", PStr "  "); ("lat", PInt 1)] "query" = None \/
                exists s, assoc [("query", PStr "  "); ("lat", PInt 1)] "query"
                          = Some (PStr s) /\ py_strip s = "").
  { right. exists "  ". split; reflexivity. }
  split; [exact Hyp|].
  exact (proj1 (@search_responses example_builtins remote_nothing)
           1%nat _ w0 Hyp).
Defined.

(** C9, as stated, fails: when the search phase finds no place, the answer
    has neither [total_found] nor [filtered_count]; and a request whose
    query is not a string is answered 500, not 400, even though its
    coordinates are missing. *)
Lemma no_results_response_counterexample :
  (exists body w',
      @search example_builtins remote_nothing 1 bakery_request w0
      = Some (Ok (PDict body, 200), w') /\
      assoc body "total_found" = None /\
      assoc body "filtered_count" = None) /\
  (exists body,
      @search example_builtins remote_nothing 1 (PDict [("query", PInt 5)]) w0
      = Some (Ok (body, 500), w0)).
Proof.
  split.
  - eexists. eexists. split; [reflexivity|]. split; reflexivity.
  - eexists. reflexivity.
Qed.

(** C10. A search entry without [place_id] (or with a null or empty one)
    is passed over by the enrichment loop: no delay, no call, no print, and
    [filtered_results] stays as it was; yet [total_found] is the length of
    the whole list of the search phase. With an entry without id and the
    place "B", [total_found] is 2 although a single detail call was made. *)
Theorem entry_without_place_id `{Builtins}
    (remote : nat -> string -> list (string * pyval) -> transport) :
  (forall (min_reviews : Z) (d : list (string * pyval))
          (rest acc : list pyval) (w : world),
      truthy (get_or d "place_id" PNone) = false ->
      enrich_one remote min_reviews acc (PDict d) w = Some (Ok acc, w) /\
      enrich remote min_reviews (PDict d :: rest) acc w
      = enrich remote min_reviews rest acc w) /\
  (forall (d : list (string * pyval)),
      assoc d "place_id" = None ->
      truthy (get_or d "place_id" PNone) = false) /\
  (forall (fuel : nat) (request : pyval) (w w1 w2 : world) (query : string)
          (lat lng : pyfloat) (radius_meters min_reviews : Z)
          (error : pyval) (nearby filtered : list pyval),
      validated request
      = Some (query, lat, lng, radius_meters, min_reviews) ->
      nearby_search remote fuel query lat lng (Z.min radius_meters 50000) w
      = Some (Ok (Some nearby, error), w1) ->
      truthy error = false ->
      nearby <> [] ->
      enrich remote min_reviews nearby [] w1 = Some (Ok filtered, w2) ->
      exists body,
        search remote fuel request w = Some (Ok (PDict body, 200), w2) /\
        assoc body "total_found"
        = Some (PInt (Z.of_nat (List.length nearby)))) /\
  (exists w',
      @search example_builtins remote_no_id 1 bakery_request w0
      = Some (Ok (jsonify [("results", PList [record_B]);
                           ("total_found", PInt 2);
                           ("filtered_count", PInt 1)], 200), w') /\
      detail_calls (log w') = 1%nat).
Proof.
  split; [|split; [|split]].
  - intros min_reviews d rest acc w Hf.
    assert (Hone : enrich_one remote min_reviews acc (PDict d) w
                   = Some (Ok acc, w)).
    { exact (enrich_one_no_id remote min_reviews acc (PDict d) _ w
               eq_refl Hf). }
    split; [exact Hone|].
    cbn [enrich]. unfold bind. now rewrite Hone.
  - intros d Hd. unfold get_or. now rewrite Hd.
  - intros fuel request w w1 w2 query lat lng radius_meters min_reviews
           error nearby filtered Hvalid Hsearch Herr Hne Hen.
    eexists. split.
    + exact (search_completed remote fuel request w query lat lng
               radius_meters min_reviews Hvalid error nearby filtered w1 w2
               Hsearch Herr Hne Hen).
    + reflexivity.
  - eexists. split; reflexivity.
Qed.

Lemma entry_without_place_id_witness :
  truthy (get_or [("name", PStr "Nameless")] "place_id" PNone) = false /\
  @enrich example_builtins remote_no_id 20
    [PDict [("name", PStr "Nameless")]; place "B"] [] w0
  = @enrich example_builtins remote_no_id 20 [place "B"] [] w0.
Proof.
  split; [reflexivity|].
  exact (proj2 (proj1 (@entry_without_place_id example_builtins remote_no_id)
                  20 [("name", PStr "Nameless")] [place "B"] [] w0 eq_refl)).
Defined.

(** ** The trace only grows *)

Section Growth.

Context {B : Builtins}.
Variable remote : nat -> string -> list (string * pyval) -> transport.

Lemma grows_ret {A} (a : A) : grows (ret a).
Proof. intros w r w' [= _ <-]. exists []. now rewrite app_nil_r. Qed.

Lemma grows_raise {A} (e : pyexn) : grows (@raise A e).
Proof. intros w r w' [= _ <-]. exists []. now rewrite app_nil_r. Qed.

Lemma grows_lift {A} (x : exc A) : grows (lift x).
Proof. destruct x; [apply grows_ret | apply grows_raise]. Qed.

Lemma grows_emit (e : event) : grows (emit e).
Proof. intros w r w' [= _ <-]. now exists [e]. Qed.

Lemma grows_http_get (url : string) (params : list (string * pyval)) :
  grows (http_get remote url params).
Proof. intros w r w' [= _ <-]. now exists [EvGet url params]. Qed.

Lemma grows_bind {A C} (c : M A) (k : A -> M C) :
  grows c -> (forall a, grows (k a)) -> grows (bind c k).
Proof.
  intros Hc Hk w r w' Hrun. unfold bind in Hrun.
  destruct (c w) as [[[a|e] w1]|] eqn:E; try discriminate.
  - destruct (Hc _ _ _ E) as [t1 H1]. destruct (Hk a _ _ _ Hrun) as [t2 H2].
    exists (t1 ++ t2). now rewrite H2, H1, app_assoc.
  - injection Hrun as _ <-. exact (Hc _ _ _ E).
Qed.

Lemma calls_first_bind {A C} (url : string) (params : list (string * pyval))
    (c : M A) (k : A -> M C) :
  calls_first url params c -> (forall a, grows (k a)) ->
  calls_first url params (bind c k).
Proof.
  intros Hc Hk w r w' Hrun. unfold bind in Hrun.
  destruct (c w) as [[[a|e] w1]|] eqn:E; try discriminate.
  - destruct (Hc _ _ _ E) as [t1 H1]. destruct (Hk a _ _ _ Hrun) as [t2 H2].
    exists (t1 ++ t2). rewrite H2, H1, <- app_assoc. reflexivity.
  - injection Hrun as _ <-. exact (Hc _ _ _ E).
Qed.

Lemma calls_first_http_get (url : string) (params : list (string * pyval)) :
  calls_first url params (http_get remote url params).
Proof. intros w r w' [= _ <-]. now exists []. Qed.

Ltac grow :=
  repeat first
    [ apply grows_ret | apply grows_raise | apply grows_lift
    | apply grows_emit | apply grows_http_get | assumption
    | apply grows_bind; [|intros ?]
    | match goal with
      | |- grows (if ?b then _ else _) => destruct b
      | |- grows (match ?x with _ => _ end) => destruct x
      end ].

Lemma grows_retry_loop (url : string) (params : list (string * pyval))
    (max_retries : Z) (attempts : list Z) :
  grows (retry_loop remote url params max_retries attempts).
Proof.
  induction attempts as [|attempt rest IH]; cbn [retry_loop];
    unfold sleep; grow.
Qed.

Lemma grows_search_loop (fuel : nat) :
  forall params acc, grows (search_loop remote fuel params acc).
Proof.
  induction fuel as [|fuel IH]; intros params acc.
  - intros w r w' Hrun. discriminate.
  - cbn [search_loop]. unfold sleep, make_request_with_retry.
    pose proof (grows_retry_loop NEARBY_SEARCH_URL params MAX_RETRIES
                  (py_range MAX_RETRIES)).
    grow. apply IH.
Qed.

Lemma grows_enrich_one (min_reviews : Z) (acc : list pyval) (place : pyval) :
  grows (enrich_one remote min_reviews acc place).
Proof.
  unfold enrich_one, get_place_details, make_request_with_retry, sleep, print.
  grow; apply grows_retry_loop.
Qed.

Lemma grows_enrich (min_reviews : Z) (places : list pyval) :
  forall acc, grows (enrich remote min_reviews places acc).
Proof.
  induction places as [|place rest IH]; intros acc; cbn [enrich].
  - apply grows_ret.
  - apply grows_bind; [apply grows_enrich_one | intros a; apply IH].
Qed.

Lemma calls_first_search_loop (fuel : nat) (params : list (string * pyval))
    (acc : list pyval) :
  calls_first NEARBY_SEARCH_URL params
    (search_loop remote (S fuel) params acc).
Proof.
  cbn [search_loop]. apply calls_first_bind.
  - unfold make_request_with_retry. cbn [retry_loop py_range MAX_RETRIES
      Z.to_nat Pos.to_nat Pos.iter_op Nat.add seq map].
    apply calls_first_bind; [apply calls_first_http_get|].
    intros t.
    pose proof (grows_retry_loop NEARBY_SEARCH_URL params 3
                  [Z.of_nat 1; Z.of_nat 2]).
    unfold sleep. grow.
  - intros [data error]. unfold sleep.
    pose proof (grows_search_loop fuel). grow. apply H.
Qed.

(** A request that passes the checks starts with the call for the first
    page, made with the clamped radius. *)
Lemma calls_first_search (fuel : nat) (request : pyval) (query : string)
    (lat lng : pyfloat) (radius_meters min_reviews : Z) :
  validated request = Some (query, lat, lng, radius_meters, min_reviews) ->
  calls_first NEARBY_SEARCH_URL
    (first_params query lat lng (Z.min radius_meters 50000))
    (search remote (S fuel) request).
Proof.
  intros Hvalid w r w' Hrun.
  assert (Hbody : exists r0,
             search_body remote (S fuel) request w = Some (r0, w')).
  { unfold search in Hrun.
    destruct (search_body remote (S fuel) request w) as [[[x|e] w1]|];
      try discriminate; injection Hrun as _ <-; eexists; reflexivity. }
  destruct Hbody as [r0 Hbody].
  rewrite (search_body_validated remote _ _ _ _ _ _ _ _ Hvalid) in Hbody.
  revert Hbody. apply calls_first_bind.
  - unfold nearby_search. apply calls_first_search_loop.
  - intros [nearby error]. pose proof (grows_enrich min_reviews). grow.
    apply H.
Qed.

End Growth.

(** ** The radius *)

(** C8, as amended. For every request that passes the checks, the first
    thing the handler does is the call for the first page, and the radius
    it sends is the smaller of the requested radius and 50000: never more
    than 50000 (100000 is sent as 50000), and any radius of at most 50000,
    negative ones included, is sent as it is. *)
Theorem radius_is_clamped_from_above `{Builtins}
    (remote : nat -> string -> list (string * pyval) -> transport) :
  (forall (fuel : nat) (request : pyval) (w w' : world)
          (r : exc (pyval * Z)) (query : string) (lat lng : pyfloat)
          (radius_meters min_reviews : Z),
      validated request
      = Some (query, lat, lng, radius_meters, min_reviews) ->
      search remote (S fuel) request w = Some (r, w') ->
      exists tail,
        log w' = log w ++
                 EvGet NEARBY_SEARCH_URL
                   (first_params query lat lng (Z.min radius_meters 50000))
                 :: tail) /\
  (forall (query : string) (lat lng : pyfloat) (radius_meters : Z),
      assoc (first_params query lat lng (Z.min radius_meters 50000)) "radius"
      = Some (PInt (if radius_meters <=? 50000 then radius_meters
                    else 50000))) /\
  (exists w' tail,
      @search example_builtins remote_nothing 1 wide_request w0
      = Some (Ok (jsonify [("results", PList []);
                           ("message", PStr "No results found")], 200), w') /\
      log w' = EvGet NEARBY_SEARCH_URL
                 [("key", PStr "k"); ("location", PStr "40.0,-74.0");
                  ("radius", PInt 50000); ("keyword", PStr "bakery")]
               :: tail).
Proof.
  split; [|split].
  - intros fuel request w w' r query lat lng radius_meters min_reviews
           Hvalid Hrun.
    exact (calls_first_search remote fuel request query lat lng radius_meters
             min_reviews Hvalid w r w' Hrun).
  - intros query lat lng radius_meters. cbn.
    destruct (Z.leb_spec radius_meters 50000);
      [rewrite Z.min_l by lia | rewrite Z.min_r by lia]; reflexivity.
  - eexists. eexists. split; reflexivity.
Qed.

Lemma radius_is_clamped_from_above_witness :
  @validated example_builtins wide_request
  = Some ("bakery", FFin 40, FFin (-74), 100000, 0) /\
  exists r w',
    @search example_builtins remote_nothing 1 wide_request w0 = Some (r, w') /\
    exists tail,
      log w' = log w0 ++
               EvGet NEARBY_SEARCH_URL
                 (@first_params example_builtins "bakery" (FFin 40)
                    (FFin (-74)) (Z.min 100000 50000))
               :: tail.
Proof.
  split; [reflexivity|]. eexists. eexists. split; [reflexivity|].
  exact (proj1 (@radius_is_clamped_from_above example_builtins remote_nothing)
           0%nat wide_request w0 _ _ "bakery" (FFin 40) (FFin (-74))
           100000 0 eq_refl eq_refl).
Defined.

(** C8, as stated, fails: a negative radius is not raised to 0; the call
    for the first page is made with the negative radius. *)
Lemma negative_radius_counterexample :
  exists r w' tail,
    @search example_builtins remote_nothing 1 negative_request w0
    = Some (r, w') /\
    log w' = EvGet NEARBY_SEARCH_URL
               [("key", PStr "k"); ("location", PStr "40.0,-74.0");
                ("radius", PInt (-5)); ("keyword", PStr "bakery")]
             :: tail /\
    PInt (-5) <> PInt 0.
Proof.
  eexists. eexists. eexists. split; [reflexivity|].
  split; [reflexivity | discriminate].
Qed.

(** * Further properties of the code *)

(** ** The result protocol of the executor *)

Lemma retry_loop_protocol `{Builtins}
    (remote : nat -> string -> list (string * pyval) -> transport)
    (url : string) (params : list (string * pyval)) (max_retries : Z)
    (attempts : list Z) :
  forall (w w' : world) (data error : pyval),
  retry_loop remote url params max_retries attempts w
  = Some (Ok (data, error), w') ->
  (error = PNone /\ exists d, data = PDict d) \/
  (data = PNone /\ exists s, error = PStr s /\ s <> "").
Proof.
  induction attempts as [|attempt rest IH]; intros w w' data error Hrun.
  - injection Hrun as <- <- _. right. split; [reflexivity|].
    eexists. split; [reflexivity | discriminate].
  - cbn [retry_loop] in Hrun. unfold bind at 1, http_get at 1 in Hrun.
    destruct (remote (gets w) url params) as [body| |text].
    + destruct body; try discriminate.
      unfold lift, py_get, bind at 1, ret at 1 in Hrun.
      fold (status_of d) in Hrun.
      destruct (py_eq_str (status_of d) "OK"
                || py_eq_str (status_of d) "ZERO_RESULTS").
      { injection Hrun as <- <- _. left. split; [reflexivity | now exists d]. }
      destruct (py_eq_str (status_of d) "OVER_QUERY_LIMIT").
      { unfold bind, sleep, emit in Hrun. exact (IH _ _ _ _ Hrun). }
      destruct (py_eq_str (status_of d) "REQUEST_DENIED");
        [|destruct (py_eq_str (status_of d) "INVALID_REQUEST")];
        unfold bind, ret in Hrun; injection Hrun as <- <- _;
        (right; split; [reflexivity|]; eexists; split;
         [reflexivity | discriminate]).
    + destruct (attempt <? max_retries - 1).
      * unfold bind, sleep, emit in Hrun. exact (IH _ _ _ _ Hrun).
      * injection Hrun as <- <- _. right. split; [reflexivity|].
        eexists. split; [reflexivity | discriminate].
    + destruct (attempt <? max_retries - 1).
      * unfold bind, sleep, emit in Hrun. exact (IH _ _ _ _ Hrun).
      * injection Hrun as <- <- _. right. split; [reflexivity|].
        eexists. split; [reflexivity | discriminate].
Qed.

Lemma truthy_nonempty (s : string) : s <> "" -> truthy (PStr s) = true.
Proof.
  intros Hs. cbn [truthy]. apply negb_true_iff. now apply String.eqb_neq.
Qed.

(** X1. Whenever [make_request_with_retry] returns its pair, either the
    error is [None] and the data is the JSON object of the response, or the
    data is [None] and the error is a non-empty string; so the test
    [if error] of the callers is true exactly when the call failed. The
    same holds for [get_place_details], whose data on success is any
    value. *)
Theorem result_pair_protocol `{Builtins}
    (remote : nat -> string -> list (string * pyval) -> transport) :
  (forall (url : string) (params : list (string * pyval)) (max_retries : Z)
          (w w' : world) (data error : pyval),
      make_request_with_retry remote url params max_retries w
      = Some (Ok (data, error), w') ->
      (error = PNone /\ truthy error = false /\ exists d, data = PDict d) \/
      (data = PNone /\ truthy error = true /\
       exists s, error = PStr s /\ s <> "")) /\
  (forall (place_id : pyval) (w w' : world) (result error : pyval),
      get_place_details remote place_id w = Some (Ok (result, error), w') ->
      (error = PNone /\ truthy error = false) \/
      (result = PNone /\ truthy error = true /\
       exists s, error = PStr s /\ s <> "")).
Proof.
  split.
  - intros url params max_retries w w' data error Hrun.
    destruct (retry_loop_protocol remote url params max_retries _ _ _ _ _ Hrun)
      as [[-> Hd] | [-> (s & -> & Hs)]].
    + left. auto.
    + right. split; [reflexivity|]. split; [now apply truthy_nonempty|].
      now exists s.
  - intros place_id w w' result error Hrun.
    unfold get_place_details, bind at 1 in Hrun.
    destruct (make_request_with_retry remote PLACE_DETAILS_URL _ MAX_RETRIES w)
      as [[[[data e]|ex] w1]|] eqn:Hcall; try discriminate.
    destruct (retry_loop_protocol remote _ _ _ _ _ _ _ _ Hcall)
      as [[-> (d & ->)] | [-> (s & -> & Hs)]].
    + cbn in Hrun. injection Hrun as _ <- _. now left.
    + rewrite (truthy_nonempty s Hs) in Hrun. injection Hrun as <- <- _.
      right. split; [reflexivity|]. split; [now apply truthy_nonempty|].
      now exists s.
Qed.

Lemma result_pair_protocol_witness :
  exists w',
    @make_request_with_retry example_builtins remote_denied_third "u" [] 3 w0
    = Some (Ok (PNone,
                PStr "Request denied: The provided API key is invalid."), w')
    /\
    ((PStr "Request denied: The provided API key is invalid." = PNone /\
      truthy (PStr "Request denied: The provided API key is invalid.") = false
      /\ exists d, PNone = PDict d) \/
     (PNone = PNone /\
      truthy (PStr "Request denied: The provided API key is invalid.") = true
      /\ exists s,
          PStr "Request denied: The provided API key is invalid." = PStr s
          /\ s <> "")).
Proof.
  eexists. split; [reflexivity|].
  exact (proj1 (@result_pair_protocol example_builtins remote_denied_third)
           "u" [] 3 w0 _ _ _ eq_refl).
Defined.

(** ** The time spent in backoff *)

Lemma total_sleep_app (l1 l2 : list event) :
  (total_sleep (l1 ++ l2) == total_sleep l1 + total_sleep l2)%Q.
Proof.
  induction l1 as [|e l1 IH]; cbn [app total_sleep].
  - now rewrite Qplus_0_l.
  - destruct e; rewrite IH; try reflexivity. now rewrite Qplus_assoc.
Qed.

Lemma total_sleep_backoff_rounds (url : string)
    (params : list (string * pyval)) (k : nat) :
  forall a : nat,
  (total_sleep (backoff_rounds url params a k)
   == inject_Z (2 ^ Z.of_nat a * (2 ^ Z.of_nat k - 1)))%Q.
Proof.
  induction k as [|k IH]; intros a.
  - cbn [backoff_rounds total_sleep]. now rewrite Z.mul_0_r.
  - cbn [backoff_rounds backoff_round app total_sleep]. rewrite IH.
    rewrite <- inject_Z_plus. unfold BACKOFF_FACTOR.
    rewrite !Nat2Z.inj_succ, !Z.pow_succ_r by lia.
    apply inject_Z_injective. ring.
Qed.

(** X2. The sleeps of one call of [make_request_with_retry] add up to at
    most [2 ^ max_retries - 1] seconds (7 seconds for the default of 3), and
    [k] retried attempts sleep exactly [2 ^ k - 1] seconds in total. *)
Theorem backoff_time_is_bounded `{Builtins}
    (remote : nat -> string -> list (string * pyval) -> transport)
    (url : string) (params : list (string * pyval)) (max_retries : Z)
    (w : world) :
  (exists r w' new,
      make_request_with_retry remote url params max_retries w = Some (r, w') /\
      log w' = log w ++ new /\
      (total_sleep new <= inject_Z (2 ^ Z.max 0 max_retries - 1))%Q) /\
  (forall k : nat,
      (total_sleep (backoff_rounds url params 0 k)
       == inject_Z (2 ^ Z.of_nat k - 1))%Q) /\
  inject_Z (2 ^ Z.max 0 MAX_RETRIES - 1) = inject_Z 7.
Proof.
  split; [|split; [|reflexivity]].
  - destruct (retry_loop_shape remote url params max_retries
                (Z.to_nat max_retries) 0 w)
      as (r & w' & k & tail & Hrun & _ & Hlog & Htail & _ & Hle).
    exists r, w', (backoff_rounds url params 0 k ++ tail).
    split; [exact Hrun|]. split; [exact Hlog|].
    rewrite total_sleep_app, total_sleep_backoff_rounds.
    assert (Ht : (total_sleep tail == 0)%Q)
      by (destruct Htail as [-> | ->]; reflexivity).
    rewrite Ht, Qplus_0_r, <- Zle_Qle.
    change (2 ^ Z.of_nat 0) with 1. rewrite Z.mul_1_l.
    apply Z.sub_le_mono_r. apply Z.pow_le_mono_r; lia.
  - intros k. rewrite total_sleep_backoff_rounds.
    change (2 ^ Z.of_nat 0) with 1. now rewrite Z.mul_1_l.
Qed.

(** ** Edges of the executor *)

(** X3. With a retry ceiling of zero or less, the loop body never runs:
    [make_request_with_retry] issues no call, does not sleep and returns the
    error "Max retries exceeded". *)
Theorem no_attempt_without_retries `{Builtins}
    (remote : nat -> string -> list (string * pyval) -> transport)
    (url : string) (params : list (string * pyval)) (max_retries : Z)
    (w : world) :
  max_retries <= 0 ->
  make_request_with_retry remote url params max_retries w
  = Some (Ok (PNone, PStr "Max retries exceeded"), w).
Proof.
  intros Hle. unfold make_request_with_retry, py_range.
  replace (Z.to_nat max_retries) with 0%nat by lia. reflexivity.
Qed.

Lemma no_attempt_without_retries_witness :
  -1 <= 0 /\
  @make_request_with_retry example_builtins remote_three_pages "u" [] (-1) w0
  = Some (Ok (PNone, PStr "Max retries exceeded"), w0).
Proof.
  split; [lia|].
  apply (@no_attempt_without_retries example_builtins). lia.
Defined.

Lemma make_request_first `{Builtins}
    (remote : nat -> string -> list (string * pyval) -> transport)
    (url : string) (params : list (string * pyval)) (max_retries : Z)
    (w : world) :
  0 < max_retries ->
  make_request_with_retry remote url params max_retries w =
  retry_loop remote url params max_retries
    (Z.of_nat 0 :: map Z.of_nat (seq 1 (Z.to_nat max_retries - 1))) w.
Proof.
  intros Hpos.
  rewrite (make_request_at remote url params max_retries w 0).
  - now rewrite after_rounds_0.
  - intros i Hi. lia.
  - lia.
Qed.

(** X4. A response body without [status] is read as status "UNKNOWN": the
    call ends at once with "API error: UNKNOWN". A denied or invalid request
    whose body has no [error_message] is reported with the default texts
    "Check API key" and "Check parameters". In each case one call was made
    and nothing was slept. *)
Theorem missing_fields_of_the_body `{Builtins}
    (remote : nat -> string -> list (string * pyval) -> transport)
    (url : string) (params : list (string * pyval)) (max_retries : Z)
    (w : world) (d : list (string * pyval)) :
  0 < max_retries ->
  remote (gets w) url params = Body (PDict d) ->
  (assoc d "status" = None ->
   make_request_with_retry remote url params max_retries w
   = Some (Ok (PNone, PStr "API error: UNKNOWN"),
           after_get w url params [])) /\
  (assoc d "status" = Some (PStr "REQUEST_DENIED") ->
   assoc d "error_message" = None ->
   make_request_with_retry remote url params max_retries w
   = Some (Ok (PNone, PStr "Request denied: Check API key"),
           after_get w url params [])) /\
  (assoc d "status" = Some (PStr "INVALID_REQUEST") ->
   assoc d "error_message" = None ->
   make_request_with_retry remote url params max_retries w
   = Some (Ok (PNone, PStr "Invalid request: Check parameters"),
           after_get w url params [])).
Proof.
  intros Hpos Hbody.
  assert (E : make_request_with_retry remote url params max_retries w
              = (status <- lift (py_get (PDict d) "status" (PStr "UNKNOWN")) ;;
                 if py_eq_str status "OK" || py_eq_str status "ZERO_RESULTS"
                 then ret (PDict d, PNone)
                 else if py_eq_str status "OVER_QUERY_LIMIT" then
                   sleep (inject_Z (BACKOFF_FACTOR ^ Z.of_nat 0)) ;;;
                   retry_loop remote url params max_retries
                     (map Z.of_nat (seq 1 (Z.to_nat max_retries - 1)))
                 else if py_eq_str status "REQUEST_DENIED" then
                   m <- lift (py_get (PDict d) "error_message"
                                (PStr "Check API key")) ;;
                   ret (PNone, PStr ("Request denied: " ++ py_str m))
                 else if py_eq_str status "INVALID_REQUEST" then
                   m <- lift (py_get (PDict d) "error_message"
                                (PStr "Check parameters")) ;;
                   ret (PNone, PStr ("Invalid request: " ++ py_str m))
                 else ret (PNone, PStr ("API error: " ++ py_str status)))
                (after_get w url params [])).
  { rewrite (make_request_first remote url params max_retries w Hpos).
    cbn [retry_loop]. unfold bind at 1, http_get at 1. now rewrite Hbody. }
  rewrite E. clear E. unfold lift, py_get, bind, ret, get_or.
  repeat split.
  - intros ->. reflexivity.
  - intros -> ->. reflexivity.
  - intros -> ->. reflexivity.
Qed.

Lemma missing_fields_of_the_body_witness :
  0 < 3 /\
  remote_empty_object (gets w0) "u" [] = Body (PDict []) /\
  assoc [] "status" = None /\
  @make_request_with_retry example_builtins remote_empty_object "u" [] 3 w0
  = Some (Ok (PNone, PStr "API error: UNKNOWN"), after_get w0 "u" [] []).
Proof.
  split; [lia|]. split; [reflexivity|]. split; [reflexivity|].
  exact (proj1 (@missing_fields_of_the_body example_builtins
                  remote_empty_object "u" [] 3 w0 []
                  ltac:(lia) eq_refl) eq_refl).
Defined.

(** ** The filter and the threshold *)

Lemma py_lt_int_mono (v : pyval) (m m' : Z) :
  m' <= m ->
  (py_lt_int v m = Ok false -> py_lt_int v m' = Ok false) /\
  (py_lt_int v m' = Ok true -> py_lt_int v m = Ok true) /\
  (forall b, py_lt_int v m' = Ok b -> exists b', py_lt_int v m = Ok b').
Proof.
  intros Hle.
  destruct v as [|b|r|[q|negative|]|s|l|d]; cbn [py_lt_int];
    try solve [repeat split; intros; first [discriminate | eauto]].
  - (* bool *)
    repeat split; intros; eauto.
    + injection H as H. f_equal. apply Z.ltb_ge in H. apply Z.ltb_ge. lia.
    + injection H as H. f_equal. apply Z.ltb_lt in H. apply Z.ltb_lt. lia.
  - (* int *)
    repeat split; intros; eauto.
    + injection H as H. f_equal. apply Z.ltb_ge in H. apply Z.ltb_ge. lia.
    + injection H as H. f_equal. apply Z.ltb_lt in H. apply Z.ltb_lt. lia.
  - (* finite float *)
    assert (Hq : (inject_Z m' <= inject_Z m)%Q) by now rewrite <- Zle_Qle.
    repeat split; intros; eauto.
    + destruct (Qcompare q (inject_Z m')) eqn:E'; try reflexivity.
      pose proof (proj2 (Qlt_alt _ _) E') as Hlt'.
      assert (Hlt : (q < inject_Z m)%Q) by (eapply Qlt_le_trans; eassumption).
      pose proof (proj1 (Qlt_alt _ _) Hlt) as Hc. rewrite Hc in H.
      discriminate.
    + destruct (Qcompare q (inject_Z m')) eqn:E'; try discriminate.
      pose proof (proj2 (Qlt_alt _ _) E') as Hlt'.
      assert (Hlt : (q < inject_Z m)%Q) by (eapply Qlt_le_trans; eassumption).
      pose proof (proj1 (Qlt_alt _ _) Hlt) as Hc. now rewrite Hc.
Qed.

(** X5. Lowering the threshold never loses a place and raising it never
    gains one: a record that [filter_place] accepts for [min_reviews] is
    accepted for every smaller threshold, and a record it rejects is
    rejected for every larger one. *)
Theorem filter_place_threshold (details : pyval) (m m' : Z) :
  m' <= m ->
  (filter_place details m = Ok true -> filter_place details m' = Ok true) /\
  (filter_place details m' = Ok false -> filter_place details m = Ok false).
Proof.
  intros Hle. unfold filter_place.
  destruct (py_get details "user_ratings_total" (PInt 0)) as [reviews|e];
    [|split; discriminate].
  destruct (py_get details "website" (PStr "")) as [website|e];
    [|split; discriminate].
  destruct (py_lt_int_mono reviews m m' Hle) as (Hfalse & Htrue & Hsome).
  split.
  - destruct (py_lt_int reviews m) as [[|]|e]; try discriminate.
    now rewrite (Hfalse eq_refl).
  - destruct (py_lt_int reviews m') as [[|]|e] eqn:E'; try discriminate.
    + now rewrite (Htrue eq_refl).
    + destruct (Hsome _ eq_refl) as [[|] ->]; [reflexivity | auto].
Qed.

Lemma filter_place_threshold_witness :
  10 <= 20 /\
  filter_place details_B 20 = Ok true /\
  filter_place details_B 10 = Ok true.
Proof.
  split; [lia|]. split; [reflexivity|].
  apply (proj1 (filter_place_threshold details_B 20 10 ltac:(lia))).
  reflexivity.
Defined.

(** X6. [filter_place] raises on ill-typed details: details that are not
    a JSON object have no [get]; a review count that is null, a string, a
    list or an object cannot be compared with the threshold; a website that
    is truthy but not a string has no [lower]. The website is looked at only
    once the review count has passed: below the threshold the record is
    rejected without any error, whatever the website is. *)
Theorem filter_place_raises :
  (forall (details : pyval) (m : Z),
      (forall d, details <> PDict d) ->
      filter_place details m = Err (AttributeError details "get")) /\
  (forall (d : list (string * pyval)) (m : Z) (v : pyval),
      assoc d "user_ratings_total" = Some v ->
      v = PNone \/ (exists s, v = PStr s) \/ (exists l, v = PList l) \/
      (exists x, v = PDict x) ->
      filter_place (PDict d) m = Err (TypeError "'<' not supported")) /\
  (forall (d : list (string * pyval)) (m r : Z) (website : pyval),
      reviews_of d = Some r ->
      m <= r ->
      assoc d "website" = Some website ->
      truthy website = true ->
      (forall s, website <> PStr s) ->
      filter_place (PDict d) m = Err (AttributeError website "lower")) /\
  (forall (d : list (string * pyval)) (m r : Z),
      reviews_of d = Some r ->
      r < m ->
      filter_place (PDict d) m = Ok false).
Proof.
  split; [|split; [|split]].
  - intros details m Hnot. destruct details; try reflexivity.
    now destruct (Hnot d).
  - intros d m v Hv Hcase. unfold filter_place, py_get, get_or. rewrite Hv.
    destruct Hcase as [-> | [[s ->] | [[l ->] | [x ->]]]]; reflexivity.
  - intros d m r website Hr Hle Hw Ht Hnot.
    unfold filter_place, py_get, get_or. rewrite Hw.
    unfold reviews_of in Hr.
    assert (Hlt : py_lt_int
              match assoc d "user_ratings_total" with
              | Some x => x | None => PInt 0 end m = Ok false).
    { destruct (assoc d "user_ratings_total") as [[]|]; try discriminate;
        injection Hr as <-; cbn [py_lt_int]; f_equal; apply Z.ltb_ge; lia. }
    rewrite Hlt, Ht. cbn [negb].
    destruct website; try reflexivity. now destruct (Hnot s).
  - intros d m r Hr Hlt. unfold filter_place, py_get, get_or.
    unfold reviews_of in Hr.
    assert (Hc : py_lt_int
              match assoc d "user_ratings_total" with
              | Some x => x | None => PInt 0 end m = Ok true).
    { destruct (assoc d "user_ratings_total") as [[]|]; try discriminate;
        injection Hr as <-; cbn [py_lt_int]; f_equal; apply Z.ltb_lt; lia. }
    now rewrite Hc.
Qed.

Lemma filter_place_raises_witness :
  reviews_of [("user_ratings_total", PInt 3); ("website", PInt 7)] = Some 3 /\
  3 < 10 /\
  filter_place
    (PDict [("user_ratings_total", PInt 3); ("website", PInt 7)]) 10
  = Ok false /\
  filter_place
    (PDict [("user_ratings_total", PInt 30); ("website", PInt 7)]) 10
  = Err (AttributeError (PInt 7) "lower").
Proof.
  split; [reflexivity|]. split; [lia|]. split.
  - apply (proj2 (proj2 (proj2 filter_place_raises)) _ 10 3);
      [reflexivity | lia].
  - apply (proj1 (proj2 (proj2 filter_place_raises)) _ 10 30 (PInt 7));
      [reflexivity | lia | reflexivity | reflexivity | discriminate].
Defined.

(** ** Exceptions during enrichment *)

Lemma search_enrich_raised `{Builtins}
    (remote : nat -> string -> list (string * pyval) -> transport)
    (fuel : nat) (request : pyval) (w w1 w2 : world) (query : string)
    (lat lng : pyfloat) (radius_meters min_reviews : Z) (error : pyval)
    (nearby : list pyval) (e : pyexn) :
  validated request = Some (query, lat, lng, radius_meters, min_reviews) ->
  nearby_search remote fuel query lat lng (Z.min radius_meters 50000) w
  = Some (Ok (Some nearby, error), w1) ->
  truthy error = false ->
  enrich remote min_reviews nearby [] w1 = Some (Err e, w2) ->
  search remote fuel request w
  = Some (Ok (jsonify [("error", PStr ("Server error: " ++ exn_text e))], 500),
          w2).
Proof.
  intros Hvalid Hsearch Herr Hen. unfold search.
  rewrite (search_body_validated remote _ _ _ _ _ _ _ _ Hvalid).
  unfold bind at 1. rewrite Hsearch, Herr.
  destruct nearby as [|p ps]; [discriminate|].
  unfold bind. rewrite Hen. reflexivity.
Qed.

(** X7. Unlike a failed detail call, an exception raised while a place is
    enriched is not absorbed: when [filter_place] raises on the details of a
    place, the loop stops there, the places after it are not fetched and the
    records kept so far are lost; the handler answers 500 with
    "Server error: " followed by the text of the exception. With details
    whose review count is null for the first of two places, one detail call
    is made and the answer is a 500. *)
Theorem enrichment_exception_aborts `{Builtins}
    (remote : nat -> string -> list (string * pyval) -> transport) :
  (forall (min_reviews : Z) (place place_id details error : pyval)
          (rest acc : list pyval) (w w1 : world) (e : pyexn),
      py_get place "place_id" PNone = Ok place_id ->
      truthy place_id = true ->
      get_place_details remote place_id (after_delay w)
      = Some (Ok (details, error), w1) ->
      truthy error = false ->
      filter_place details min_reviews = Err e ->
      enrich remote min_reviews (place :: rest) acc w = Some (Err e, w1)) /\
  (forall (fuel : nat) (request : pyval) (w w1 w2 : world) (query : string)
          (lat lng : pyfloat) (radius_meters min_reviews : Z)
          (error : pyval) (nearby : list pyval) (e : pyexn),
      validated request
      = Some (query, lat, lng, radius_meters, min_reviews) ->
      nearby_search remote fuel query lat lng (Z.min radius_meters 50000) w
      = Some (Ok (Some nearby, error), w1) ->
      truthy error = false ->
      enrich remote min_reviews nearby [] w1 = Some (Err e, w2) ->
      search remote fuel request w
      = Some (Ok (jsonify
                    [("error", PStr ("Server error: " ++ exn_text e))], 500),
              w2)) /\
  (exists w',
      @search example_builtins remote_null_reviews 1 bakery_request w0
      = Some (Ok (jsonify
                    [("error", PStr "Server error: '<' not supported")], 500),
              w') /\
      detail_calls (log w') = 1%nat).
Proof.
  split; [|split].
  - intros min_reviews place place_id details error rest acc w w1 e
           Hid Ht Hcall Herr Hf.
    cbn [enrich]. unfold bind.
    rewrite (enrich_one_fetched remote min_reviews acc place place_id details
               error w w1 Hid Ht Hcall Herr), Hf.
    reflexivity.
  - intros fuel request w w1 w2 query lat lng radius_meters min_reviews
           error nearby e Hvalid Hsearch Herr Hen.
    exact (search_enrich_raised remote fuel request w w1 w2 query lat lng
             radius_meters min_reviews error nearby e Hvalid Hsearch Herr Hen).
  - eexists. split; reflexivity.
Qed.

Lemma enrichment_exception_aborts_witness :
  exists w1,
    py_get (place "B") "place_id" PNone = Ok (PStr "B") /\
    truthy (PStr "B") = true /\
    @get_place_details example_builtins remote_null_reviews (PStr "B")
      (after_delay w0)
    = Some (Ok (PDict [("name", PStr "B Bakery");
                       ("user_ratings_total", PNone)], PNone), w1) /\
    truthy PNone = false /\
    filter_place (PDict [("name", PStr "B Bakery");
                         ("user_ratings_total", PNone)]) 20
    = Err (TypeError "'<' not supported") /\
    @enrich example_builtins remote_null_reviews 20 [place "B"; place "C"]
      [record_B] w0
    = Some (Err (TypeError "'<' not supported"), w1).
Proof.
  eexists. split; [reflexivity|]. split; [reflexivity|].
  split; [reflexivity|]. split; [reflexivity|]. split; [reflexivity|].
  apply (proj1 (@enrichment_exception_aborts example_builtins
                  remote_null_reviews)
           20 (place "B") (PStr "B") _ PNone [place "C"] [record_B] w0 _ _
           eq_refl eq_refl eq_refl eq_refl eq_refl).
Defined.

(** ** Enrichment when every detail call is answered *)

Section Answered.

Context {B : Builtins}.
Variable remote : nat -> string -> list (string * pyval) -> transport.

Lemma get_place_details_ok (place_id : pyval) (w : world)
    (d : list (string * pyval)) :
  remote (gets w) PLACE_DETAILS_URL (detail_params place_id)
  = Body (PDict d) ->
  py_eq_str (status_of d) "OK" || py_eq_str (status_of d) "ZERO_RESULTS"
  = true ->
  get_place_details remote place_id w
  = Some (Ok (get_or d "result" (PDict []), PNone),
          after_get w PLACE_DETAILS_URL (detail_params place_id) []).
Proof.
  intros Hd Hs. unfold get_place_details, bind at 1.
  fold (detail_params place_id).
  rewrite (make_request_first_ok remote _ _ _ _ Hd Hs). reflexivity.
Qed.

Lemma filter_place_ok_dict (details : pyval) (m : Z) (b : bool) :
  filter_place details m = Ok b -> exists d, details = PDict d.
Proof. destruct details; try discriminate. intros _. now exists d. Qed.

Lemma enrich_one_answered (min_reviews : Z) (acc : list pyval)
    (p d : list (string * pyval)) (w : world) (b : bool) :
  truthy (get_or p "place_id" PNone) = true ->
  remote (gets w) PLACE_DETAILS_URL
    (detail_params (get_or p "place_id" PNone)) = Body (PDict d) ->
  py_eq_str (status_of d) "OK" || py_eq_str (status_of d) "ZERO_RESULTS"
  = true ->
  filter_place (get_or d "result" (PDict [])) min_reviews = Ok b ->
  enrich_one remote min_reviews acc (PDict p) w
  = Some (Ok (acc ++ kept_of min_reviews (get_or p "place_id" PNone)
                       (get_or d "result" (PDict []))),
          after_get (after_delay w) PLACE_DETAILS_URL
            (detail_params (get_or p "place_id" PNone)) []).
Proof.
  intros Ht Hd Hs Hf.
  rewrite (enrich_one_fetched remote min_reviews acc (PDict p)
             (get_or p "place_id" PNone) (get_or d "result" (PDict []))
             PNone w _ eq_refl Ht
             (get_place_details_ok _ (after_delay w) d Hd Hs) eq_refl).
  unfold kept_of. rewrite Hf.
  destruct (filter_place_ok_dict _ _ _ Hf) as [x ->].
  destruct b; [reflexivity | now rewrite app_nil_r].
Qed.

Lemma enrich_answered (min_reviews : Z)
    (items : list (list (string * pyval) * list (string * pyval))) :
  forall (acc : list pyval) (w : world),
  forallb (item_ok min_reviews) items = true ->
  (forall i item url ps, nth_error items i = Some item ->
                         remote (gets w + i) url ps = Body (PDict (snd item))) ->
  enrich remote min_reviews (map (fun item => PDict (fst item)) items) acc w
  = Some (Ok (acc ++ flat_map
                       (fun item =>
                          kept_of min_reviews
                            (get_or (fst item) "place_id" PNone)
                            (get_or (snd item) "result" (PDict [])))
                       items),
          mkWorld (gets w + List.length items)
                  (log w ++ flat_map detail_round items)).
Proof.
  induction items as [|[p d] rest IH]; intros acc w Hok Hrem.
  - cbn. rewrite !app_nil_r, Nat.add_0_r. now destruct w.
  - cbn [forallb] in Hok. apply andb_true_iff in Hok.
    destruct Hok as [Hitem Hrest]. unfold item_ok in Hitem. cbn [fst snd] in Hitem.
    apply andb_true_iff in Hitem. destruct Hitem as [Hitem Hf].
    apply andb_true_iff in Hitem. destruct Hitem as [Ht Hs].
    destruct (filter_place (get_or d "result" (PDict [])) min_reviews)
      as [b|e] eqn:Hfilter; [|discriminate].
    assert (Hd : remote (gets w) PLACE_DETAILS_URL
                   (detail_params (get_or p "place_id" PNone))
                 = Body (PDict d)).
    { specialize (Hrem 0%nat (p, d) PLACE_DETAILS_URL
                    (detail_params (get_or p "place_id" PNone)) eq_refl).
      now rewrite Nat.add_0_r in Hrem. }
    cbn [map enrich fst]. unfold bind.
    rewrite (enrich_one_answered min_reviews acc p d w b Ht Hd Hs Hfilter).
    rewrite IH.
    + unfold after_get, after_delay, detail_round.
      cbn [gets log flat_map fst snd List.length].
      rewrite <- !app_assoc. cbn [app].
      now replace (S (gets w) + List.length rest)%nat
        with (gets w + S (List.length rest))%nat by lia.
    + exact Hrest.
    + intros i item url ps Hi. unfold after_get, after_delay. cbn [gets].
      replace (S (gets w) + i)%nat with (gets w + S i)%nat by lia.
      apply Hrem. exact Hi.
Qed.

End Answered.

Lemma count_gets_detail_rounds `{Builtins}
    (items : list (list (string * pyval) * list (string * pyval))) :
  count_gets (flat_map detail_round items) = List.length items.
Proof.
  induction items as [|item rest IH]; [reflexivity|].
  cbn [flat_map]. rewrite count_gets_app, IH. reflexivity.
Qed.

Lemma total_sleep_detail_rounds `{Builtins}
    (items : list (list (string * pyval) * list (string * pyval))) :
  (total_sleep (flat_map detail_round items)
   == inject_Z (Z.of_nat (List.length items)) * REQUEST_DELAY)%Q.
Proof.
  induction items as [|item rest IH].
  - cbn. reflexivity.
  - cbn [flat_map]. rewrite total_sleep_app, IH.
    cbn [detail_round total_sleep List.length].
    rewrite Nat2Z.inj_succ, <- Z.add_1_r, inject_Z_plus. ring.
Qed.

(** X8. When every place has an id and every detail call is answered at
    the first attempt with details on which the filter does not raise, the
    enrichment loop returns exactly the records of the places whose details
    pass the filter, in the order of the places; per place it sleeps 0.1 s
    and makes one detail call, so [n] places cost [n] calls and [n * 0.1]
    seconds of sleep. *)
Theorem enrichment_of_answered_places `{Builtins}
    (remote : nat -> string -> list (string * pyval) -> transport)
    (min_reviews : Z)
    (items : list (list (string * pyval) * list (string * pyval)))
    (acc : list pyval) (w : world) :
  forallb (item_ok min_reviews) items = true ->
  (forall i item url ps, nth_error items i = Some item ->
       remote (gets w + i)%nat url ps = Body (PDict (snd item))) ->
  enrich remote min_reviews (map (fun item => PDict (fst item)) items) acc w
  = Some (Ok (acc ++ flat_map
                       (fun item =>
                          kept_of min_reviews
                            (get_or (fst item) "place_id" PNone)
                            (get_or (snd item) "result" (PDict [])))
                       items),
          mkWorld (gets w + List.length items)
                  (log w ++ flat_map detail_round items)) /\
  count_gets (flat_map detail_round items) = List.length items /\
  (total_sleep (flat_map detail_round items)
   == inject_Z (Z.of_nat (List.length items)) * REQUEST_DELAY)%Q.
Proof.
  intros Hok Hrem. split; [|split].
  - exact (enrich_answered remote min_reviews items acc w Hok Hrem).
  - apply count_gets_detail_rounds.
  - apply total_sleep_detail_rounds.
Qed.

Lemma enrichment_of_answered_places_witness :
  forallb (item_ok 20) answered_items = true /\
  (forall i item url ps, nth_error answered_items i = Some item ->
       remote_serving (map snd answered_items) (gets w0 + i)%nat url ps
       = Body (PDict (snd item))) /\
  @enrich example_builtins (remote_serving (map snd answered_items)) 20
    [place "B"; place "C"] [] w0
  = Some (Ok [record_B],
          mkWorld 2
            [EvSleep REQUEST_DELAY;
             EvGet PLACE_DETAILS_URL
               (@detail_params example_builtins (PStr "B"));
             EvSleep REQUEST_DELAY;
             EvGet PLACE_DETAILS_URL
               (@detail_params example_builtins (PStr "C"))]).
Proof.
  assert (Hrem : forall i item url ps,
             nth_error answered_items i = Some item ->
             remote_serving (map snd answered_items) (gets w0 + i)%nat url ps
             = Body (PDict (snd item))).
  { intros i item url ps Hi. unfold remote_serving. cbn [gets w0 Nat.add].
    now rewrite nth_error_map, Hi. }
  split; [reflexivity|]. split; [exact Hrem|].
  exact (proj1 (@enrichment_of_answered_places example_builtins
                  (remote_serving (map snd answered_items)) 20 answered_items
                  [] w0 eq_refl Hrem)).
Defined.

(** X9. A detail body without [result] counts as empty details: the place
    is kept only when the threshold is 0 or less, and its record then has
    empty texts, 0 reviews, rating 0 and the [place_id] of the search
    entry. *)
Theorem details_without_result `{Builtins}
    (remote : nat -> string -> list (string * pyval) -> transport)
    (min_reviews : Z) (acc : list pyval) (p d : list (string * pyval))
    (w : world) :
  truthy (get_or p "place_id" PNone) = true ->
  remote (gets w) PLACE_DETAILS_URL
    (detail_params (get_or p "place_id" PNone)) = Body (PDict d) ->
  py_eq_str (status_of d) "OK" || py_eq_str (status_of d) "ZERO_RESULTS"
  = true ->
  assoc d "result" = None ->
  enrich_one remote min_reviews acc (PDict p) w
  = Some (Ok (if min_reviews <=? 0
              then acc ++ [blank_record (get_or p "place_id" PNone)]
              else acc),
          after_get (after_delay w) PLACE_DETAILS_URL
            (detail_params (get_or p "place_id" PNone)) []).
Proof.
  intros Ht Hd Hs Hr.
  assert (Hres : get_or d "result" (PDict []) = PDict [])
    by (unfold get_or; now rewrite Hr).
  assert (Hf : filter_place (get_or d "result" (PDict [])) min_reviews
               = Ok (negb (0 <? min_reviews))).
  { rewrite Hres. unfold filter_place. cbn.
    now destruct (0 <? min_reviews). }
  rewrite (enrich_one_answered remote min_reviews acc p d w _ Ht Hd Hs Hf).
  unfold kept_of. rewrite Hf, Hres.
  destruct (Z.ltb_spec 0 min_reviews) as [Hlt|Hge]; cbn [negb].
  - replace (min_reviews <=? 0) with false by (symmetry; apply Z.leb_gt; lia).
    now rewrite app_nil_r.
  - replace (min_reviews <=? 0) with true by (symmetry; apply Z.leb_le; lia).
    reflexivity.
Qed.

Lemma details_without_result_witness :
  truthy (get_or [("place_id", PStr "B")] "place_id" PNone) = true /\
  remote_no_result (gets w0) PLACE_DETAILS_URL
    (@detail_params example_builtins
       (get_or [("place_id", PStr "B")] "place_id" PNone))
  = Body (PDict [("status", PStr "OK")]) /\
  assoc [("status", PStr "OK")] "result" = None /\
  @enrich_one example_builtins remote_no_result 0 [] (place "B") w0
  = Some (Ok [blank_record (PStr "B")],
          after_get (after_delay w0) PLACE_DETAILS_URL
            (@detail_params example_builtins (PStr "B")) []).
Proof.
  split; [reflexivity|]. split; [reflexivity|]. split; [reflexivity|].
  exact (@details_without_result example_builtins remote_no_result 0 []
           [("place_id", PStr "B")] [("status", PStr "OK")] w0
           eq_refl eq_refl eq_refl eq_refl).
Defined.

(** ** The number of detail calls *)

Section CallBudget.

Context {B : Builtins}.
Variable remote : nat -> string -> list (string * pyval) -> transport.

Lemma calls_ret {A} (a : A) : calls_at_most 0 (ret a).
Proof.
  intros w r w' [= _ <-]. exists []. now rewrite app_nil_r.
Qed.

Lemma calls_lift {A} (x : exc A) : calls_at_most 0 (lift x).
Proof.
  destruct x; intros w r w' [= _ <-]; exists []; now rewrite app_nil_r.
Qed.

Lemma calls_emit (e : event) : is_get e = false -> calls_at_most 0 (emit e).
Proof.
  intros He w r w' [= _ <-]. exists [e]. split; [reflexivity|].
  unfold count_gets. cbn. now rewrite He.
Qed.

Lemma calls_weaken {A} (n m : nat) (c : M A) :
  (n <= m)%nat -> calls_at_most n c -> calls_at_most m c.
Proof.
  intros Hle Hc w r w' Hrun. destruct (Hc _ _ _ Hrun) as (tail & Hlog & Hn).
  exists tail. split; [exact Hlog | lia].
Qed.

Lemma calls_bind {A C} (n m : nat) (c : M A) (k : A -> M C) :
  calls_at_most n c -> (forall a, calls_at_most m (k a)) ->
  calls_at_most (n + m) (bind c k).
Proof.
  intros Hc Hk w r w' Hrun. unfold bind in Hrun.
  destruct (c w) as [[[a|e] w1]|] eqn:E; try discriminate.
  - destruct (Hc _ _ _ E) as (t1 & H1 & Hn1).
    destruct (Hk a _ _ _ Hrun) as (t2 & H2 & Hn2).
    exists (t1 ++ t2). split; [now rewrite H2, H1, app_assoc|].
    rewrite count_gets_app. lia.
  - injection Hrun as _ <-. destruct (Hc _ _ _ E) as (t1 & H1 & Hn1).
    exists t1. split; [exact H1 | lia].
Qed.

Lemma calls_make_request (url : string) (params : list (string * pyval))
    (max_retries : Z) :
  calls_at_most (Z.to_nat max_retries)
    (make_request_with_retry remote url params max_retries).
Proof.
  intros w r w' Hrun.
  destruct (retry_loop_shape remote url params max_retries
              (Z.to_nat max_retries) 0 w)
    as (r0 & w0' & k & tail & Hrun0 & _ & Hlog & Htail & _ & Hle).
  unfold make_request_with_retry, py_range in Hrun.
  rewrite Hrun0 in Hrun. injection Hrun as _ <-.
  exists (backoff_rounds url params 0 k ++ tail). split; [exact Hlog|].
  rewrite count_gets_app, count_gets_backoff_rounds.
  destruct Htail as [-> | ->]; cbn in *; lia.
Qed.

Lemma calls_get_place_details (place_id : pyval) :
  calls_at_most 3 (get_place_details remote place_id).
Proof.
  unfold get_place_details.
  change 3%nat with (Z.to_nat MAX_RETRIES + 0)%nat.
  apply calls_bind; [apply calls_make_request|].
  intros [data error]. destruct (truthy error); [apply calls_ret|].
  change 0%nat with (0 + 0)%nat.
  apply calls_bind; [apply calls_lift | intros; apply calls_ret].
Qed.

Lemma calls_enrich_one (min_reviews : Z) (acc : list pyval) (place : pyval) :
  calls_at_most (if has_id place then 3 else 0)
    (enrich_one remote min_reviews acc place).
Proof.
  unfold enrich_one, has_id.
  destruct (py_get place "place_id" PNone) as [place_id|e].
  - unfold lift at 1.
    assert (Hk : calls_at_most (if truthy place_id then 3 else 0)
              (if negb (truthy place_id) then ret acc
               else sleep REQUEST_DELAY ;;;
                    '(details, error) <- get_place_details remote place_id ;;
                    if truthy error then
                      print ("Error fetching details for "
                             ++ py_str place_id ++ ": " ++ py_str error) ;;;
                      ret acc
                    else
                      keep <- lift (filter_place details min_reviews) ;;
                      if keep then
                        record <- lift (make_record details place_id) ;;
                        ret (acc ++ [record])
                      else ret acc)).
    { destruct (truthy place_id); cbn [negb]; [|apply calls_ret].
      change 3%nat with (0 + (3 + 0))%nat.
      apply calls_bind; [now apply calls_emit|]. intros _.
      apply calls_bind; [apply calls_get_place_details|].
      intros [details error]. destruct (truthy error).
      - change 0%nat with (0 + 0)%nat.
        apply calls_bind; [now apply calls_emit | intros; apply calls_ret].
      - change 0%nat with (0 + 0)%nat.
        apply calls_bind; [apply calls_lift|]. intros keep.
        destruct keep; [|apply calls_ret].
        change 0%nat with (0 + 0)%nat.
        apply calls_bind; [apply calls_lift | intros; apply calls_ret]. }
    intros w r w' Hrun. unfold bind, ret in Hrun. exact (Hk _ _ _ Hrun).
  - intros w r w' Hrun. cbn in Hrun. injection Hrun as _ <-.
    exists []. now rewrite app_nil_r.
Qed.

Lemma calls_enrich (min_reviews : Z) (places : list pyval) :
  forall acc,
  calls_at_most (3 * List.length (filter has_id places))
    (enrich remote min_reviews places acc).
Proof.
  induction places as [|place rest IH]; intros acc; cbn [enrich].
  - apply calls_ret.
  - eapply calls_weaken;
      [|apply calls_bind; [apply calls_enrich_one | intros a; apply IH]].
    cbn [filter]. destruct (has_id place); cbn [List.length]; lia.
Qed.

End CallBudget.

(** X10. The enrichment of a list of search entries makes at most three
    detail calls per entry that has a [place_id], and none for the others,
    however the calls end. *)
Theorem enrichment_call_budget `{Builtins}
    (remote : nat -> string -> list (string * pyval) -> transport)
    (min_reviews : Z) (places acc : list pyval) (w w' : world)
    (r : exc (list pyval)) :
  enrich remote min_reviews places acc w = Some (r, w') ->
  exists tail,
    log w' = log w ++ tail /\
    (count_gets tail <= 3 * List.length (filter has_id places))%nat /\
    (count_gets tail <= 3 * List.length places)%nat.
Proof.
  intros Hrun.
  destruct (calls_enrich remote min_reviews places acc w r w' Hrun)
    as (tail & Hlog & Hn).
  exists tail. split; [exact Hlog|]. split; [exact Hn|].
  pose proof (filter_length_le has_id places). lia.
Qed.

Lemma enrichment_call_budget_witness :
  exists w',
    @enrich example_builtins remote_bakery 20
      [PDict [("name", PStr "Nameless")]; place "A"; place "B"] [] w0
    = Some (Ok [record_B], w') /\
    exists tail,
      log w' = log w0 ++ tail /\
      (count_gets tail
       <= 3 * List.length
              (filter has_id
                 [PDict [("name", PStr "Nameless")]; place "A"; place "B"]))%nat
      /\ (count_gets tail <= 3 * 3)%nat.
Proof.
  eexists. split; [reflexivity|].
  exact (@enrichment_call_budget example_builtins remote_bakery 20
           [PDict [("name", PStr "Nameless")]; place "A"; place "B"] [] w0
           _ _ eq_refl).
Defined.

(** ** Requests that are turned down *)

Section Requests.

Context {B : Builtins}.
Variable remote : nat -> string -> list (string * pyval) -> transport.

Lemma validated_inv (d : list (string * pyval)) (query : string)
    (lat lng : pyfloat) (radius_meters min_reviews : Z) :
  validated (PDict d) = Some (query, lat, lng, radius_meters, min_reviews) ->
  exists q,
    get_or d "query" (PStr "") = PStr q /\ query = py_strip q /\
    py_strip q <> "" /\
    is_none (get_or d "lat" PNone) = false /\
    is_none (get_or d "lng" PNone) = false /\
    py_float (get_or d "lat" PNone) = Ok lat /\
    py_float (get_or d "lng" PNone) = Ok lng /\
    py_int (get_or d "radius_meters" (PInt 5000)) = Ok radius_meters /\
    py_int (get_or d "min_reviews" (PInt 0)) = Ok min_reviews.
Proof.
  unfold validated, convert.
  destruct (get_or d "query" (PStr "")) as [| | | |q| |]; try discriminate.
  destruct (py_strip q =? "")%string eqn:Hq; [discriminate|].
  destruct (is_none (get_or d "lat" PNone)) eqn:Hlat; [discriminate|].
  destruct (is_none (get_or d "lng" PNone)) eqn:Hlng; [discriminate|].
  cbn [orb].
  destruct (py_float (get_or d "lat" PNone)) as [a|]; [|discriminate].
  destruct (py_float (get_or d "lng" PNone)) as [b|]; [|discriminate].
  destruct (py_int (get_or d "radius_meters" (PInt 5000))) as [c|];
    [|discriminate].
  destruct (py_int (get_or d "min_reviews" (PInt 0))) as [e|]; [|discriminate].
  cbn [fst snd]. intros [= <- <- <- <- <-].
  exists q. repeat split; auto. now apply String.eqb_neq.
Qed.

(** The answer to a request whose conversions raise. *)
Lemma search_conversion_error (fuel : nat) (d : list (string * pyval))
    (w : world) (q : string) (e : pyexn) :
  get_or d "query" (PStr "") = PStr q ->
  py_strip q <> "" ->
  is_none (get_or d "lat" PNone) = false ->
  is_none (get_or d "lng" PNone) = false ->
  convert (get_or d "lat" PNone) (get_or d "lng" PNone)
          (get_or d "radius_meters" (PInt 5000))
          (get_or d "min_reviews" (PInt 0)) = Err e ->
  search remote fuel (PDict d) w
  = Some (Ok match e with
             | ValueError _ =>
                 (jsonify [("error", PStr "Invalid parameter types")], 400)
             | _ =>
                 (jsonify [("error", PStr ("Server error: " ++ exn_text e))],
                  500)
             end, w).
Proof.
  intros Hq Hs Hlat Hlng Hc. unfold search, search_body, py_get, lift.
  rewrite Hq. unfold py_strip_method, bind at 1 2 3 4 5 6, ret.
  cbn [truthy]. apply String.eqb_neq in Hs. rewrite Hs. cbn [negb].
  rewrite Hlat, Hlng. cbn [orb]. rewrite Hc. now destruct e.
Qed.

Lemma search_not_an_object (fuel : nat) (data : pyval) (w : world) :
  (forall d, data <> PDict d) ->
  search remote fuel data w
  = Some (Ok (jsonify
                [("error",
                  PStr ("Server error: "
                        ++ exn_text (AttributeError data "get")))], 500), w).
Proof.
  intros Hnot. destruct data; try reflexivity. now destruct (Hnot d).
Qed.

(** Every request that is turned down gets an error body with status 400
    or 500, and the world is left as it was. *)
Lemma search_rejected (fuel : nat) (data : pyval) (w : world) :
  validated data = None ->
  exists msg code,
    search remote fuel data w
    = Some (Ok (jsonify [("error", PStr msg)], code), w) /\
    (code = 400 \/ code = 500).
Proof.
  intros Hv.
  destruct data as [| | | | |l|d];
    try (eexists; eexists; split; [reflexivity | now right]).
  unfold validated in Hv.
  destruct (get_or d "query" (PStr "")) as [| | | |q| |] eqn:Hq;
    try (unfold search, search_body, py_get, lift; rewrite Hq;
         eexists; eexists; split; [reflexivity | now right]).
  destruct (py_strip q =? "")%string eqn:Hs.
  { apply String.eqb_eq in Hs.
    rewrite (search_query_required remote fuel d w q Hq Hs).
    eexists; eexists; split; [reflexivity | now left]. }
  apply String.eqb_neq in Hs.
  destruct (is_none (get_or d "lat" PNone)) eqn:Hlat.
  { rewrite (search_coordinates_required remote fuel d w q Hq Hs).
    - eexists; eexists; split; [reflexivity | now left].
    - left. now destruct (get_or d "lat" PNone). }
  destruct (is_none (get_or d "lng" PNone)) eqn:Hlng.
  { rewrite (search_coordinates_required remote fuel d w q Hq Hs).
    - eexists; eexists; split; [reflexivity | now left].
    - right. now destruct (get_or d "lng" PNone). }
  cbn [orb] in Hv.
  destruct (convert _ _ _ _) as [args|e] eqn:Hc; [discriminate|].
  rewrite (search_conversion_error fuel d w q e Hq Hs Hlat Hlng Hc).
  destruct e; eexists; eexists; (split; [reflexivity|]); auto.
Qed.

End Requests.

(** X11. A request that fails a check or a conversion, for whatever
    reason, is answered with a body that has the single field [error] and
    with status 400 or 500, and nothing is called, slept or printed. A body
    that is not a JSON object (for instance null) is answered 500 with
    "Server error: " and the text of the exception. *)
Theorem rejected_requests_call_nothing `{Builtins}
    (remote : nat -> string -> list (string * pyval) -> transport)
    (fuel : nat) (data : pyval) (w : world) :
  (validated data = None ->
   exists msg code,
     search remote fuel data w
     = Some (Ok (jsonify [("error", PStr msg)], code), w) /\
     (code = 400 \/ code = 500)) /\
  ((forall d, data <> PDict d) ->
   search remote fuel data w
   = Some (Ok (jsonify
                 [("error",
                   PStr ("Server error: "
                         ++ exn_text (AttributeError data "get")))], 500),
           w)).
Proof.
  split.
  - exact (search_rejected remote fuel data w).
  - exact (search_not_an_object remote fuel data w).
Qed.

Lemma rejected_requests_call_nothing_witness :
  @validated example_builtins nan_request = None /\
  exists msg code,
    @search example_builtins remote_bakery 1 nan_request w0
    = Some (Ok (jsonify [("error", PStr msg)], code), w0) /\
    (code = 400 \/ code = 500).
Proof.
  split; [reflexivity|].
  exact (proj1 (@rejected_requests_call_nothing example_builtins remote_bakery
                  1%nat nan_request w0) eq_refl).
Defined.



(** ** The shape of every answer *)

(** X13. The handler never lets an exception out: whenever it returns, it
    returns a body and a status; the status is 200 and the body has a list
    under [results], or the status is 400 or 500 and the body is the single
    field [error]. *)
Theorem search_always_answers `{Builtins}
    (remote : nat -> string -> list (string * pyval) -> transport)
    (fuel : nat) (data : pyval) (w w' : world) (r : exc (pyval * Z)) :
  search remote fuel data w = Some (r, w') ->
  exists body code,
    r = Ok (PDict body, code) /\
    ((code = 200 /\ exists l, assoc body "results" = Some (PList l)) \/
     ((code = 400 \/ code = 500) /\ exists msg, body = [("error", msg)])).
Proof.
  intros Hrun.
  destruct (validated data)
    as [[[[[query lat] lng] radius_meters] min_reviews]|] eqn:Hvalid.
  2:{ destruct (search_rejected remote fuel data w Hvalid)
        as (msg & code & Hr & Hcode).
      rewrite Hr in Hrun. injection Hrun as <- _.
      eexists. eexists. split; [reflexivity|]. right. split; [exact Hcode|].
      now exists (PStr msg). }
  unfold search in Hrun.
  rewrite (search_body_validated remote _ _ _ _ _ _ _ _ Hvalid) in Hrun.
  unfold bind at 1 in Hrun.
  destruct (nearby_search remote fuel query lat lng
              (Z.min radius_meters 50000) w)
    as [[[[nearby error]|e] w1]|]; try discriminate.
  - destruct (truthy error).
    { injection Hrun as <- _. eexists. eexists. split; [reflexivity|].
      right. split; [now right | now exists error]. }
    destruct nearby as [[|p ps]|].
    + injection Hrun as <- _. eexists. eexists. split; [reflexivity|].
      left. split; [reflexivity | now exists []].
    + unfold bind in Hrun.
      destruct (enrich remote min_reviews (p :: ps) [] w1)
        as [[[filtered|e] w2]|]; try discriminate;
        injection Hrun as <- _; eexists; eexists; (split; [reflexivity|]).
      * left. split; [reflexivity | now exists filtered].
      * right. split; [now right | eexists; reflexivity].
    + injection Hrun as <- _. eexists. eexists. split; [reflexivity|].
      left. split; [reflexivity | now exists []].
  - injection Hrun as <- _. eexists. eexists. split; [reflexivity|].
    right. split; [now right | eexists; reflexivity].
Qed.

Lemma search_always_answers_witness :
  exists w',
    @search example_builtins remote_null_reviews 1 bakery_request w0
    = Some (Ok (jsonify
                  [("error", PStr "Server error: '<' not supported")], 500),
            w') /\
    exists body code,
      Ok (jsonify [("error", PStr "Server error: '<' not supported")], 500)
      = Ok (PDict body, code) /\
      ((code = 200 /\ exists l, assoc body "results" = Some (PList l)) \/
       ((code = 400 \/ code = 500) /\ exists msg, body = [("error", msg)])).
Proof.
  eexists. split; [reflexivity|].
  exact (@search_always_answers example_builtins remote_null_reviews 1%nat
           bakery_request w0 _ _ eq_refl).
Defined.

(** ** Counts *)

Lemma subseq_length {A} (l1 l2 : list A) :
  subseq l1 l2 -> (List.length l1 <= List.length l2)%nat.
Proof. induction 1; cbn [List.length]; lia. Qed.

(** X14. In every answer that carries the counts, [filtered_count] is the
    length of [results] and is at most [total_found], and [total_found] is
    at least 1. *)
Theorem counts_are_consistent `{Builtins}
    (remote : nat -> string -> list (string * pyval) -> transport)
    (fuel : nat) (request : pyval) (w w' : world) (filtered : list pyval)
    (total count : pyval) :
  search remote fuel request w
  = Some (Ok (jsonify [("results", PList filtered); ("total_found", total);
                       ("filtered_count", count)], 200), w') ->
  exists n m : nat,
    total = PInt (Z.of_nat n) /\ count = PInt (Z.of_nat m) /\
    m = List.length filtered /\ (m <= n)%nat /\ (1 <= n)%nat.
Proof.
  intros Hrun.
  destruct (search_completed_inv remote fuel request w w' filtered total
              count Hrun)
    as (query & lat & lng & radius_meters & min_reviews & nearby & error
        & w1 & _ & _ & _ & Hne & Hen & -> & ->).
  destruct (enrich_inv remote min_reviews nearby [] filtered w1 w' Hen)
    as (kept & Hsub & Hout & _).
  exists (List.length nearby), (List.length filtered).
  repeat split.
  - apply subseq_length in Hsub. rewrite Hout. cbn [app].
    now rewrite length_map in *.
  - destruct nearby; [congruence | cbn; lia].
Qed.

Lemma counts_are_consistent_witness :
  exists w',
    @search example_builtins remote_bakery 1 bakery_request w0
    = Some (Ok (jsonify [("results", PList [record_B]);
                         ("total_found", PInt 2);
                         ("filtered_count", PInt 1)], 200), w') /\
    exists n m : nat,
      PInt 2 = PInt (Z.of_nat n) /\ PInt 1 = PInt (Z.of_nat m) /\
      m = List.length [record_B] /\ (m <= n)%nat /\ (1 <= n)%nat.
Proof.
  eexists. split; [reflexivity|].
  exact (@counts_are_consistent example_builtins remote_bakery 1%nat
           bakery_request w0 _ [record_B] (PInt 2) (PInt 1) eq_refl).
Defined.

(** ** Defaults of the request *)

(** X15. A request that passes the checks but has no [radius_meters] is
    searched with a radius of 5000, and one without [min_reviews] is
    filtered with a threshold of 0. *)
Theorem request_defaults `{Builtins}
    (remote : nat -> string -> list (string * pyval) -> transport)
    (fuel : nat) (d : list (string * pyval)) (w : world) (query : string)
    (lat lng : pyfloat) (radius_meters min_reviews : Z) :
  validated (PDict d) = Some (query, lat, lng, radius_meters, min_reviews) ->
  (assoc d "radius_meters" = None ->
   radius_meters = 5000 /\
   forall r w',
     search remote (S fuel) (PDict d) w = Some (r, w') ->
     exists tail,
       log w' = log w ++
                EvGet NEARBY_SEARCH_URL (first_params query lat lng 5000)
                :: tail) /\
  (assoc d "min_reviews" = None -> min_reviews = 0).
Proof.
  intros Hvalid.
  destruct (validated_inv d query lat lng radius_meters min_reviews Hvalid)
    as (q & _ & _ & _ & _ & _ & _ & _ & Hr & Hm).
  split.
  - intros Hnone. unfold get_or in Hr. rewrite Hnone in Hr.
    injection Hr as <-. split; [reflexivity|].
    intros r w' Hrun.
    exact (calls_first_search remote fuel (PDict d) query lat lng 5000
             min_reviews Hvalid w r w' Hrun).
  - intros Hnone. unfold get_or in Hm. rewrite Hnone in Hm.
    now injection Hm as <-.
Qed.

Lemma request_defaults_witness :
  @validated example_builtins plain_request
  = Some ("bakery", FFin 40, FFin (-74), 5000, 0) /\
  exists r w',
    @search example_builtins remote_nothing 1 plain_request w0 = Some (r, w')
    /\ exists tail,
        log w' = log w0 ++
                 EvGet NEARBY_SEARCH_URL
                   (@first_params example_builtins "bakery" (FFin 40)
                      (FFin (-74)) 5000)
                 :: tail.
Proof.
  split; [reflexivity|]. eexists. eexists. split; [reflexivity|].
  exact (proj2 (proj1 (@request_defaults example_builtins remote_nothing
                         0%nat
                         [("query", PStr "bakery"); ("lat", PFloat (FFin 40));
                          ("lng", PFloat (FFin (-74)))]
                         w0 "bakery" (FFin 40) (FFin (-74)) 5000 0
                         eq_refl) eq_refl) _ _ eq_refl).
Defined.

(** ** Pages that cannot be read *)

(** X16. A page with status OK whose [results] is null, a boolean or a
    number cannot extend the list: the walk raises [TypeError] right after
    the call, and a request that passed the checks is answered 500 with
    "Server error: " and the text of the exception. *)
Theorem unreadable_page `{Builtins}
    (remote : nat -> string -> list (string * pyval) -> transport)
    (fuel : nat) (params : list (string * pyval)) (acc : list pyval)
    (w : world) (d : list (string * pyval)) :
  remote (gets w) NEARBY_SEARCH_URL params = Body (PDict d) ->
  py_eq_str (status_of d) "OK" || py_eq_str (status_of d) "ZERO_RESULTS"
  = true ->
  match page_results d with
  | PNone | PBool _ | PInt _ | PFloat _ => True
  | _ => False
  end ->
  search_loop remote (S fuel) params acc w
  = Some (Err (TypeError "object is not iterable"),
          after_get w NEARBY_SEARCH_URL params []) /\
  (forall request query lat lng radius_meters min_reviews,
      validated request
      = Some (query, lat, lng, radius_meters, min_reviews) ->
      params = first_params query lat lng (Z.min radius_meters 50000) ->
      search remote (S fuel) request w
      = Some (Ok (jsonify
                    [("error",
                      PStr ("Server error: "
                            ++ exn_text (TypeError "object is not iterable")))],
                  500),
              after_get w NEARBY_SEARCH_URL params [])).
Proof.
  intros Hd Hs Hres.
  assert (Hloop : forall acc0,
             search_loop remote (S fuel) params acc0 w
             = Some (Err (TypeError "object is not iterable"),
                     after_get w NEARBY_SEARCH_URL params [])).
  { intros acc0. cbn [search_loop]. unfold bind at 1.
    rewrite (make_request_first_ok remote _ _ _ _ Hd Hs). cbn [truthy].
    unfold lift, py_get, bind, ret. fold (page_results d).
    destruct (page_results d); try contradiction; reflexivity. }
  split; [apply Hloop|].
  intros request query lat lng radius_meters min_reviews Hvalid ->.
  unfold search.
  rewrite (search_body_validated remote _ _ _ _ _ _ _ _ Hvalid).
  unfold bind at 1, nearby_search.
  fold (first_params query lat lng (Z.min radius_meters 50000)).
  now rewrite Hloop.
Qed.

Lemma unreadable_page_witness :
  @search_loop example_builtins
    (remote_serving [[("status", PStr "OK"); ("results", PNone)]])
    1 [] [place "A"] w0
  = Some (Err (TypeError "object is not iterable"),
          after_get w0 NEARBY_SEARCH_URL [] []).
Proof.
  refine (proj1 (@unreadable_page example_builtins
                   (remote_serving [[("status", PStr "OK"); ("results", PNone)]])
                   0%nat [] [place "A"] w0
                   [("status", PStr "OK"); ("results", PNone)]
                   eq_refl eq_refl _)).
  exact I.
Defined.

(** ** The keyword that is sent *)

Lemma rstrip_cons (c : ascii) (s : string) :
  rstrip (String c s) =
  match rstrip s with
  | EmptyString => if is_space c then EmptyString else String c EmptyString
  | r => String c r
  end.
Proof. reflexivity. Qed.

Lemma rstrip_idem (s : string) : rstrip (rstrip s) = rstrip s.
Proof.
  induction s as [|c s IH]; [reflexivity|]. rewrite rstrip_cons.
  destruct (rstrip s) as [|a r] eqn:E.
  - destruct (is_space c) eqn:Hc; [reflexivity|].
    rewrite rstrip_cons. cbn [rstrip]. now rewrite Hc.
  - rewrite rstrip_cons, IH. reflexivity.
Qed.

Lemma lstrip_head (s : string) :
  lstrip s = "" \/ exists c r, lstrip s = String c r /\ is_space c = false.
Proof.
  induction s as [|c s IH]; [now left|]. cbn [lstrip].
  destruct (is_space c) eqn:Hc; [exact IH|]. right. now exists c, s.
Qed.

Lemma lstrip_rstrip (c : ascii) (s : string) :
  is_space c = false ->
  lstrip (rstrip (String c s)) = rstrip (String c s).
Proof.
  intros Hc. rewrite rstrip_cons.
  destruct (rstrip s); [rewrite Hc|]; cbn [lstrip]; now rewrite Hc.
Qed.

Lemma py_strip_idem (s : string) : py_strip (py_strip s) = py_strip s.
Proof.
  unfold py_strip.
  destruct (lstrip_head s) as [-> | (c & r & -> & Hc)]; [reflexivity|].
  now rewrite (lstrip_rstrip c r Hc), rstrip_idem.
Qed.

(** X17. The keyword of the first search call is the query of the request
    without the blanks around it: it is not empty and stripping it again
    changes nothing. *)
Theorem keyword_is_stripped `{Builtins}
    (remote : nat -> string -> list (string * pyval) -> transport)
    (fuel : nat) (d : list (string * pyval)) (w : world) (query : string)
    (lat lng : pyfloat) (radius_meters min_reviews : Z) :
  validated (PDict d) = Some (query, lat, lng, radius_meters, min_reviews) ->
  (exists q, assoc d "query" = Some (PStr q) /\ query = py_strip q) /\
  query <> "" /\
  py_strip query = query /\
  forall r w',
    search remote (S fuel) (PDict d) w = Some (r, w') ->
    exists ps tail,
      log w' = log w ++ EvGet NEARBY_SEARCH_URL ps :: tail /\
      assoc ps "keyword" = Some (PStr query).
Proof.
  intros Hvalid.
  destruct (validated_inv d query lat lng radius_meters min_reviews Hvalid)
    as (q & Hq & -> & Hne & _).
  split; [|split; [exact Hne | split; [apply py_strip_idem|]]].
  - exists q. split; [|reflexivity]. unfold get_or in Hq.
    destruct (assoc d "query") as [v|]; [now rewrite Hq|].
    injection Hq as <-. now destruct Hne.
  - intros r w' Hrun.
    destruct (calls_first_search remote fuel (PDict d) (py_strip q) lat lng
                radius_meters min_reviews Hvalid w r w' Hrun) as [tail Hlog].
    eexists. exists tail. split; [exact Hlog | reflexivity].
Qed.

Lemma keyword_is_stripped_witness :
  @validated example_builtins padded_request
  = Some ("bakery", FFin 40, FFin (-74), 5000, 0) /\
  py_strip "bakery" = "bakery" /\
  exists r w',
    @search example_builtins remote_nothing 1 padded_request w0 = Some (r, w')
    /\ exists ps tail,
        log w' = log w0 ++ EvGet NEARBY_SEARCH_URL ps :: tail /\
        assoc ps "keyword" = Some (PStr "bakery").
Proof.
  split; [reflexivity|]. split; [reflexivity|].
  eexists. eexists. split; [reflexivity|].
  exact (proj2 (proj2 (proj2
           (@keyword_is_stripped example_builtins remote_nothing 0%nat
              [("query", PStr "  bakery "); ("lat", PFloat (FFin 40));
               ("lng", PFloat (FFin (-74)))]
              w0 "bakery" (FFin 40) (FFin (-74)) 5000 0 eq_refl)))
           _ _ eq_refl).
Defined.
